(** * handyaws-frontauth: the Lambda@Edge gatekeeper, embedded and verified

    A shallow embedding of [src/frontAuth.js], [src/getAuthorizedRequest.js],
    [src/getAuthBearerToken.js] and [src/setCookieResponse.js].

    JavaScript objects used as dictionaries (request headers, the parsed
    cookies, [jwtVerifyOptions], the token claims) are finite maps; the
    request object, whose identity matters on the allow path, lives in a
    heap and is passed around by reference; promises and exceptions are
    completions in a small state-and-exception monad that also records the
    calls made to the collaborators. *)

From Stdlib Require Import ZArith Lia Ascii String.
From stdpp Require Import base option list gmap strings.

Local Open Scope string_scope.

(** ** JavaScript strings *)

Module JsString.

(** [s.split(sep)] for a one-character separator: never the empty list,
    [''.split(' ')] is [['']]. *)
Fixpoint split (sep : ascii) (s : string) : list string :=
  match s with
  | EmptyString => [ EmptyString ]
  | String c r =>
      if Ascii.eqb c sep then EmptyString :: split sep r
      else match split sep r with
           | h :: t => String c h :: t
           | [] => [ String c EmptyString ]
           end
  end.

(** [l.join(sep)] on an array of strings. *)
Fixpoint join (sep : string) (l : list string) : string :=
  match l with
  | [] => ""
  | [x] => x
  | x :: r => x ++ sep ++ join sep r
  end.

(** White space of [String.prototype.trim] among the code units below 256:
    TAB, LF, VT, FF, CR, SP and NBSP. *)
Definition is_white (c : ascii) : bool :=
  let n := nat_of_ascii c in
  (Nat.leb 9 n && Nat.leb n 13) || Nat.eqb n 32 || Nat.eqb n 160.

Fixpoint trimStart (s : string) : string :=
  match s with
  | String c r => if is_white c then trimStart r else s
  | EmptyString => EmptyString
  end.

Fixpoint trimEnd (s : string) : string :=
  match s with
  | EmptyString => EmptyString
  | String c r =>
      match trimEnd r with
      | EmptyString => if is_white c then EmptyString else String c EmptyString
      | r' => String c r'
      end
  end.

Definition trim (s : string) : string := trimEnd (trimStart s).

(** No occurrence of the character [c] in [s]. *)
Fixpoint free_of (c : ascii) (s : string) : bool :=
  match s with
  | EmptyString => true
  | String d r => negb (Ascii.eqb d c) && free_of c r
  end.

(** No white space at all in [s]. *)
Fixpoint solid (s : string) : bool :=
  match s with
  | EmptyString => true
  | String d r => negb (is_white d) && solid r
  end.

End JsString.

Import JsString.

(** ** JavaScript values *)

(** The result of [parseInt]: [NaN] or an integer.  The number is the
    mathematical integer; a JavaScript Number represents it exactly
    below 2^53 and rounds it above, so the model stands for the built-in
    on inputs below that bound only. *)
Inductive JsNumber : Type :=
  | NaN
  | Int (z : Z).

(** The values that the configuration tags and the swizzled options take. *)
Inductive JsValue : Type :=
  | JUndefined
  | JString (s : string)
  | JNumber (n : JsNumber)
  | JArray (l : list string).

#[global] Instance JsNumber_eq_dec : EqDecision JsNumber.
Proof. solve_decision. Defined.

#[global] Instance JsValue_eq_dec : EqDecision JsValue.
Proof. solve_decision. Defined.

(** An object used as a dictionary: a missing property reads [undefined]. *)
Abbreviation Obj := (gmap string JsValue).

Definition get (o : Obj) (k : string) : JsValue := default JUndefined (o !! k).

(** ToBoolean. *)
Definition truthy (v : JsValue) : bool :=
  match v with
  | JUndefined => false
  | JString s => negb (String.eqb s "")
  | JNumber NaN => false
  | JNumber (Int z) => negb (Z.eqb z 0)
  | JArray _ => true
  end.

Definition typeof (v : JsValue) : string :=
  match v with
  | JUndefined => "undefined"
  | JString _ => "string"
  | JNumber _ => "number"
  | JArray _ => "object"
  end.

(** A string-valued property that may be missing, as [config.setCookieUri]. *)
Definition truthy_string (v : option string) : bool :=
  match v with
  | Some s => negb (String.eqb s "")
  | None => false
  end.

(** ToString of a string that may be [undefined], as a template literal
    or a computed property key applies it. *)
Definition to_string (v : option string) : string :=
  match v with
  | Some s => s
  | None => "undefined"
  end.

(** [config.tokenCookieConfig || ''] *)
Definition or_empty (v : option string) : string :=
  if truthy_string v then to_string v else "".

Module ParseInt.

Definition digit_value (c : ascii) : option Z :=
  let n := Z.of_nat (nat_of_ascii c) in
  if (Z.leb 48 n && Z.leb n 57)%bool then Some (n - 48)%Z
  else if (Z.leb 97 n && Z.leb n 122)%bool then Some (n - 87)%Z
  else if (Z.leb 65 n && Z.leb n 90)%bool then Some (n - 55)%Z
  else None.

(** The longest prefix of digits of the radix, [None] when it is empty. *)
Fixpoint digits (radix : Z) (s : string) (acc : option Z) : option Z :=
  match s with
  | EmptyString => acc
  | String c r =>
      match digit_value c with
      | Some d =>
          if Z.ltb d radix then digits radix r (Some (radix * default 0 acc + d))%Z
          else acc
      | None => acc
      end
  end.

Definition sign_of (s : string) : Z * string :=
  match s with
  | String "-" r => ((-1)%Z, r)
  | String "+" r => (1%Z, r)
  | _ => (1%Z, s)
  end.

Definition radix_of (s : string) : Z * string :=
  match s with
  | String "0" (String "x" r) => (16%Z, r)
  | String "0" (String "X" r) => (16%Z, r)
  | _ => (10%Z, s)
  end.

(** [parseInt(s)] without a radix argument. *)
Definition of_string (s : string) : JsNumber :=
  let '(sgn, s1) := sign_of (trimStart s) in
  let '(radix, s2) := radix_of s1 in
  match digits radix s2 None with
  | Some v => Int (sgn * v)
  | None => NaN
  end.

End ParseInt.

(** [parseInt(v)]: the argument goes through ToString first.  An integer
    Number prints as its decimal digits (below 10^21) and reads back as
    itself; an array of strings prints as its elements joined by commas. *)
Definition parseInt (v : JsValue) : JsNumber :=
  match v with
  | JUndefined => NaN
  | JString s => ParseInt.of_string s
  | JNumber n => n
  | JArray l => ParseInt.of_string (join "," l)
  end.

(** ** Exceptions and completions *)

Inductive JsError : Type :=
  | Thrown (s : string)        (* [throw 'EINVAL'], [throw 'EACCES'] *)
  | TypeError                  (* a property read or a call on [undefined] *)
  | SyntaxError                (* [new RegExp] on an invalid pattern *)
  | Rejected (reason : string) (* a collaborator's promise rejected *).

Inductive Completion (A : Type) : Type :=
  | Return (a : A)
  | Throw (e : JsError).

Arguments Return {A} a.
Arguments Throw {A} e.

(** ** The data model *)

(** A token: the string, or [undefined] when the extractor found none. *)
Abbreviation Token := (option string).

Abbreviation Claims := (gmap string JsValue).

Record HeaderEntry : Type := { key : string; value : string }.

Abbreviation Headers := (gmap string (list HeaderEntry)).

Record Request : Type := {
  clientIp : string;
  headers : Headers;
  method : string;
  querystring : string;
  uri : string;
  body : Obj
}.

(** Request objects are held by reference. *)
Abbreviation loc := positive.
Abbreviation Heap := (gmap loc Request).

Record Cf : Type := { request : loc }.
Record EventRecord : Type := { cf : Cf }.
Record Event : Type := { Records : list EventRecord }.
Record Context : Type := { invokedFunctionArn : string }.

(** A Lambda@Edge response; the forbidden response has no [headers]. *)
Record Response : Type := {
  status : string;
  statusDescription : string;
  response_headers : option Headers
}.

(** What the handler resolves to: the request object itself, or a response. *)
Inductive Outcome : Type :=
  | PassThrough (r : loc)
  | Respond (r : Response).

(** [jwtVerify(token, keyName, options)], a promise of the claims. *)
Abbreviation Verifier := (Token -> option string -> option Obj -> Completion Claims).

(** The configuration that [getConfigFromTags] resolves to.  The field
    [clockTolerance] is the top-level [config.clockTolerance] that the
    handler reads; the tags put the option under [jwtVerifyOptions]. *)
Record Config : Type := {
  jwtVerifyOptions : option Obj;
  clockTolerance : JsValue;
  keyPairName : option string;
  publicKeyStore : option string;
  setCookieUri : option string;
  tokenCookieConfig : option string;
  tokenCookieName : option string;
  jwtVerify : option Verifier
}.

(** The bound [this] of [frontAuth]: the two caller-supplied helpers.
    [getSetCookieToken] receives the request object and may do with it what
    it likes; [getAuthorizedPatterns] is called with the configuration as
    its [this] and the claims as its argument. *)
Record Helpers : Type := {
  getSetCookieToken : option (loc -> Heap -> Completion Token * Heap);
  getAuthorizedPatterns : option (Config -> Claims -> Completion (list string))
}.

(** The argument of [getConfigFromTags]. *)
Record TagQuery : Type := {
  arn : string;
  prefix : string;
  sep : string;
  retryFirstDelay : Z;
  retryMaxDelay : Z
}.

(** ** Effects: the heap of request objects, the calls made, exceptions *)

(** The calls to the collaborators, in the order they are made. *)
Inductive Call : Type :=
  | CallGetConfigFromTags (q : TagQuery) (result : Completion Config)
  | CallGetSetCookieToken (r : loc) (result : Completion Token)
  | CallJwtVerify (token : Token) (keyName : option string)
      (options : option Obj) (result : Completion Claims)
  | CallParseCookies (hs : Headers) (result : gmap string string)
  | CallGetAuthorizedPatterns (claims : Claims) (result : Completion (list string))
  | CallSome (patterns : list string) (u : string) (result : Completion bool)
  | CallSetCookieResponse (cookieName : option string) (cookieConfig : string)
      (token : Token).

Record World : Type := { heap : Heap; calls : list Call }.

Definition M (A : Type) : Type := World -> Completion A * World.

#[global] Instance M_ret : MRet M := fun A a w => (Return a, w).

#[global] Instance M_bind : MBind M := fun A B f m w =>
  match m w with
  | (Return a, w') => f a w'
  | (Throw e, w') => (Throw e, w')
  end.

Definition throw {A} (e : JsError) : M A := fun w => (Throw e, w).

(** [try { m } catch (err) { h err }] *)
Definition try_catch {A} (m : M A) (h : JsError -> M A) : M A := fun w =>
  match m w with
  | (Return a, w') => (Return a, w')
  | (Throw e, w') => h e w'
  end.

(** A promise that has settled, or a call that has returned or thrown. *)
Definition await {A} (c : Completion A) : M A := fun w => (c, w).

Definition log (c : Call) : M unit := fun w =>
  (Return tt, {| heap := heap w; calls := calls w ++ [c] |}).

(** Reading the object behind a reference; a missing object is [undefined]
    and reading a property of it throws. *)
Definition deref (r : loc) : M Request := fun w =>
  match heap w !! r with
  | Some o => (Return o, w)
  | None => (Throw TypeError, w)
  end.

(** Running a computation on a heap, with no call made yet. *)
Definition run {A} (m : M A) (h : Heap) : Completion A * World :=
  m {| heap := h; calls := [] |}.

(** ** Regular expressions: the interface of the built-in engine *)

Class RegExpEngine : Type := {
  regexp : Type;
  (** [new RegExp(source)]; [None] when the constructor throws. *)
  RegExp : string -> option regexp;
  (** [re.test(s)] for a pattern without flags. *)
  test : regexp -> string -> bool
}.

(** [l.some(f)] for a callback that may throw: stops at the first [true]. *)
Fixpoint some {A} (f : A -> Completion bool) (l : list A) : Completion bool :=
  match l with
  | [] => Return false
  | x :: r =>
      match f x with
      | Return true => Return true
      | Return false => some f r
      | Throw e => Throw e
      end
  end.

(** ** src/setCookieResponse.js *)

Module SetCookie.
Record Args : Type := {
  cookieName : option string;
  cookieConfig : option string;
  token : Token
}.
End SetCookie.

Definition setCookieResponse (args : SetCookie.Args) : Response :=
  let cookieConfig :=
    if truthy_string (SetCookie.cookieConfig args)
    then "; " ++ to_string (SetCookie.cookieConfig args)
    else "" in
  {| status := "204";
     statusDescription := "OK";
     response_headers := Some {[ "set-cookie" :=
       [ {| key := "Set-Cookie";
            value := to_string (SetCookie.cookieName args) ++ "=" ++
                     to_string (SetCookie.token args) ++ cookieConfig |} ] ]} |}.

(** ** src/getAuthBearerToken.js *)

Definition getAuthBearerToken (request : Request) : Completion Token :=
  match headers request !! "authorization" with
  | Some (entry :: _) =>
      let parts := split " " (value entry) in
      let scheme := parts !! 0%nat in
      let token := parts !! 1%nat in
      if bool_decide (scheme = Some "Bearer") then Return token
      else Throw (Thrown "EINVAL")
  | _ => Throw TypeError
  end.

(** [getAuthBearerToken] as the bound [getSetCookieToken]: it reads the
    request object and leaves it alone. *)
Definition getAuthBearerToken_helper (r : loc) (h : Heap) : Completion Token * Heap :=
  match h !! r with
  | Some o => (getAuthBearerToken o, h)
  | None => (Throw TypeError, h)
  end.

(** ** src/getAuthorizedRequest.js and src/frontAuth.js *)

(** The [this] that [frontAuth] builds for [getAuthorizedRequest]. *)
Module This.
Record t : Type := {
  tokenCookieName : option string;
  getAuthorizedPatterns : Token -> M (list string)
}.
End This.

Definition with_jwtVerifyOptions (config : Config) (o : option Obj) : Config :=
  {| jwtVerifyOptions := o;
     clockTolerance := clockTolerance config;
     keyPairName := keyPairName config;
     publicKeyStore := publicKeyStore config;
     setCookieUri := setCookieUri config;
     tokenCookieConfig := tokenCookieConfig config;
     tokenCookieName := tokenCookieName config;
     jwtVerify := jwtVerify config |}.

Definition with_jwtVerify (config : Config) (v : option Verifier) : Config :=
  {| jwtVerifyOptions := jwtVerifyOptions config;
     clockTolerance := clockTolerance config;
     keyPairName := keyPairName config;
     publicKeyStore := publicKeyStore config;
     setCookieUri := setCookieUri config;
     tokenCookieConfig := tokenCookieConfig config;
     tokenCookieName := tokenCookieName config;
     jwtVerify := v |}.

(** The string behind a value whose [typeof] is ['string']. *)
Definition string_of (v : JsValue) : string :=
  match v with
  | JString s => s
  | _ => ""
  end.

(** "swizzle jwtVerifyOptions" (frontAuth.js, lines 122-133).  The source
    updates the options object in place and goes on with it; here the
    updated configuration is the result. *)
Definition swizzle (config : Config) : Config :=
  match jwtVerifyOptions config with
  | None => config
  | Some o =>
      let o1 :=
        if truthy (get o "clockTolerance") &&
           String.eqb (typeof (clockTolerance config)) "string"
        then <[ "clockTolerance" := JNumber (parseInt (get o "clockTolerance")) ]> o
        else o in
      let o2 :=
        if truthy (get o1 "algorithms") &&
           String.eqb (typeof (get o1 "algorithms")) "string"
        then <[ "algorithms" :=
                  JArray (split " " (trim (string_of (get o1 "algorithms")))) ]> o1
        else o1 in
      with_jwtVerifyOptions config (Some o2)
  end.

(** The constant 403 response of the [catch] block. *)
Definition forbidden : Response :=
  {| status := "403"; statusDescription := "Forbidden"; response_headers := None |}.

(** [event.Records[0].cf.request] *)
Definition event_request (event : Event) : M loc :=
  match Records event !! 0%nat with
  | Some r => mret (request (cf r))
  | None => throw TypeError
  end.

(** [config.jwtVerify(token, config.keyPairName, config.jwtVerifyOptions)] *)
Definition call_jwtVerify (config : Config) (token : Token) : M Claims :=
  match jwtVerify config with
  | Some verify =>
      let r := verify token (keyPairName config) (jwtVerifyOptions config) in
      log (CallJwtVerify token (keyPairName config) (jwtVerifyOptions config) r) ;;
      await r
  | None => throw TypeError
  end.

(** [this.getAuthorizedPatterns.call(config, claims)] *)
Definition call_getAuthorizedPatterns (this : Helpers) (config : Config)
    (claims : Claims) : M (list string) :=
  match getAuthorizedPatterns this with
  | Some f =>
      log (CallGetAuthorizedPatterns claims (f config claims)) ;;
      await (f config claims)
  | None => throw TypeError
  end.

(** [this.getSetCookieToken(request)]: the helper is handed the request
    object itself. *)
Definition call_getSetCookieToken
    (f : loc -> Heap -> Completion Token * Heap) (r : loc) : M Token := fun w =>
  let '(c, h) := f r (heap w) in
  (c, {| heap := h; calls := calls w ++ [CallGetSetCookieToken r c] |}).

Section Gatekeeper.

(** The collaborators: configuration from the function's tags, the
    library's [jwtVerify] bound to a key cache that fetches from the given
    public key store, the cookie parser and the regular expression engine. *)
Context (getConfigFromTags : TagQuery -> Completion Config)
        (jwtVerify_bound : option string -> Verifier)
        (parseCookies : Headers -> gmap string string)
        `{engine : RegExpEngine}.

(** [re => (new RegExp(re)).test(uri)] *)
Definition matches (u : string) (re : string) : Completion bool :=
  match RegExp re with
  | Some rx => Return (test rx u)
  | None => Throw SyntaxError
  end.

Definition getAuthorizedRequest (this : This.t) (event : Event) : M loc :=
  request ← event_request event ;
  r ← deref request ;
  log (CallParseCookies (headers r) (parseCookies (headers r))) ;;
  let token := parseCookies (headers r) !! to_string (This.tokenCookieName this) in
  patterns ← This.getAuthorizedPatterns this token ;
  r' ← deref request ;
  log (CallSome patterns (uri r') (some (matches (uri r')) patterns)) ;;
  ok ← await (some (matches (uri r')) patterns) ;
  if ok : bool then mret request else throw (Thrown "EACCES").

(** "add jwtVerify" (frontAuth.js, lines 135-146). *)
Definition add_jwtVerify (config : Config) : Config :=
  match jwtVerify config with
  | Some _ => config
  | None => with_jwtVerify config (Some (jwtVerify_bound (publicKeyStore config)))
  end.

(** The [if] branch of "process request" (lines 151-159). *)
Definition issuance (config : Config)
    (getToken : loc -> Heap -> Completion Token * Heap) (request : loc) : M Outcome :=
  token ← call_getSetCookieToken getToken request ;
  let cookieConfig :=
    join "; " (split " " (trim (or_empty (tokenCookieConfig config)))) in
  call_jwtVerify config token ;;
  log (CallSetCookieResponse (tokenCookieName config) cookieConfig token) ;;
  mret (Respond (setCookieResponse
    {| SetCookie.token := token;
       SetCookie.cookieConfig := Some cookieConfig;
       SetCookie.cookieName := tokenCookieName config |})).

(** The [else] branch (lines 162-167). *)
Definition authorization (this : Helpers) (config : Config) (event : Event) : M Outcome :=
  r ← getAuthorizedRequest
        {| This.tokenCookieName := tokenCookieName config;
           This.getAuthorizedPatterns := fun token =>
             claims ← call_jwtVerify config token ;
             call_getAuthorizedPatterns this config claims |}
        event ;
  mret (PassThrough r).

(** The condition of line 149, evaluated left to right: the request's
    [uri] is read only when the first two operands are truthy. *)
Definition process (this : Helpers) (config : Config) (event : Event)
    (request : loc) : M Outcome :=
  if truthy_string (setCookieUri config) then
    match getSetCookieToken this with
    | Some getToken =>
        r ← deref request ;
        if bool_decide (Some (uri r) = setCookieUri config)
        then issuance config getToken request
        else authorization this config event
    | None => authorization this config event
    end
  else authorization this config event.

Definition tagQuery (context : Context) : TagQuery :=
  {| arn := invokedFunctionArn context;
     prefix := "cfg.";
     sep := ".";
     retryFirstDelay := 500;
     retryMaxDelay := 120000 |}.

Definition frontAuth (this : Helpers) (event : Event) (context : Context) : M Outcome :=
  try_catch
    (log (CallGetConfigFromTags (tagQuery context)
            (getConfigFromTags (tagQuery context))) ;;
     config ← await (getConfigFromTags (tagQuery context)) ;
     let config := add_jwtVerify (swizzle config) in
     request ← event_request event ;
     process this config event request)
    (fun err => mret (Respond forbidden)).

End Gatekeeper.

(** ** Observations on an invocation *)

(** One invocation of the handler on a heap: its completion, the final
    heap and the calls it made. *)
Definition invoke (getConfigFromTags : TagQuery -> Completion Config)
    (jwtVerify_bound : option string -> Verifier)
    (parseCookies : Headers -> gmap string string) `{engine : RegExpEngine}
    (this : Helpers) (event : Event) (context : Context) (h : Heap)
    : Completion Outcome * World :=
  run (frontAuth getConfigFromTags jwtVerify_bound parseCookies this event context) h.

(** The condition of line 149-150 for the set-cookie branch, on the request
    object [r]. *)
Definition issues (this : Helpers) (config : Config) (r : Request) : bool :=
  truthy_string (setCookieUri config) &&
  bool_decide (is_Some (getSetCookieToken this)) &&
  bool_decide (Some (uri r) = setCookieUri config).

Definition is_getSetCookieToken (c : Call) : bool :=
  match c with CallGetSetCookieToken _ _ => true | _ => false end.

Definition is_parseCookies (c : Call) : bool :=
  match c with CallParseCookies _ _ => true | _ => false end.

Definition is_setCookieResponse (c : Call) : bool :=
  match c with CallSetCookieResponse _ _ _ => true | _ => false end.

Definition is_getAuthorizedPatterns (c : Call) : bool :=
  match c with CallGetAuthorizedPatterns _ _ => true | _ => false end.

(** The set-cookie branch was taken: the submitted token was asked for. *)
Definition issuance_entered (cs : list Call) : bool := existsb is_getSetCookieToken cs.

(** The [else] branch was taken: [getAuthorizedRequest] parsed the cookies. *)
Definition authorization_entered (cs : list Call) : bool := existsb is_parseCookies cs.

(** A step that did not succeed: a collaborator threw or rejected, or the
    pattern test did not come out [true]. *)
Definition failed (c : Call) : bool :=
  match c with
  | CallGetConfigFromTags _ (Throw _) => true
  | CallGetSetCookieToken _ (Throw _) => true
  | CallJwtVerify _ _ _ (Throw _) => true
  | CallGetAuthorizedPatterns _ (Throw _) => true
  | CallSome _ _ (Return true) => false
  | CallSome _ _ _ => true
  | _ => false
  end.

(** [a] is called, and [b] is the very next call. *)
Definition adjacent (a b : Call) (cs : list Call) : Prop :=
  ∃ pre post : list Call, cs = (pre ++ a :: b :: post)%list.

(** The options that the verifier was handed, call by call. *)
Definition verify_options (cs : list Call) : list (option Obj) :=
  omap (fun c => match c with
                 | CallJwtVerify _ _ o _ => Some o
                 | _ => None
                 end) cs.

(** The tokens that the verifier was handed, call by call. *)
Definition verify_tokens (cs : list Call) : list Token :=
  omap (fun c => match c with
                 | CallJwtVerify t _ _ _ => Some t
                 | _ => None
                 end) cs.

(** Nothing but white space in [s]. *)
Fixpoint blank (s : string) : bool :=
  match s with
  | EmptyString => true
  | String c r => is_white c && blank r
  end.

(** The value of the first [Set-Cookie] header of a response. *)
Definition set_cookie_value (r : Response) : option string :=
  hs ← response_headers r ;
  es ← hs !! "set-cookie" ;
  e ← es !! 0%nat ;
  Some (value e).

(** A cookie directive as the configuration lists them: no white space
    inside, not empty. *)
Definition directive (d : string) : Prop := solid d = true ∧ d ≠ "".

(** ** A regular expression engine for a fragment of the pattern language

    The built-in [RegExp] restricted to patterns made of ordinary
    characters, [.], [^], [$] and the postfix [*]: enough for the patterns
    of the documentation (['^/common/.*']).  A [*] with nothing to repeat
    is a syntax error, as in the built-in.  Patterns that use groups,
    classes, alternation, escapes or the other quantifiers are outside the
    fragment ([in_fragment] is [false] on them) and this engine refuses
    them. *)

Module RegExpFragment.

Inductive Atom : Type :=
  | Char (c : ascii)
  | Dot
  | Bol
  | Eol.

Record Term : Type := { atom : Atom; starred : bool }.

Definition outside (c : ascii) : bool :=
  existsb (Ascii.eqb c) (list_ascii_of_string "+?()[]{}|\").

Definition in_fragment (source : string) : bool :=
  forallb (fun c => negb (outside c)) (list_ascii_of_string source).

Definition classify (c : ascii) : option Atom :=
  if Ascii.eqb c "^" then Some Bol
  else if Ascii.eqb c "$" then Some Eol
  else if Ascii.eqb c "." then Some Dot
  else if Ascii.eqb c "*" || outside c then None
  else Some (Char c).

(** Only atoms that consume a character can be repeated. *)
Definition quantifiable (a : Atom) : bool :=
  match a with
  | Char _ | Dot => true
  | Bol | Eol => false
  end.

Fixpoint parse (source : string) : option (list Term) :=
  match source with
  | EmptyString => Some []
  | String c r =>
      match classify c with
      | None => None
      | Some a =>
          match r with
          | String "*" r' =>
              if quantifiable a
              then cons {| atom := a; starred := true |} <$> parse r'
              else None
          | _ => cons {| atom := a; starred := false |} <$> parse r
          end
      end
  end.

Definition line_terminator (c : ascii) : bool :=
  Ascii.eqb c "010" || Ascii.eqb c "013".

Definition atom_char (a : Atom) (c : ascii) : bool :=
  match a with
  | Char d => Ascii.eqb c d
  | Dot => negb (line_terminator c)
  | Bol | Eol => false
  end.

(** Does the sequence of terms match a prefix of [s]?  [bol] tells
    whether [s] starts at the beginning of the input. *)
Fixpoint match_here (ts : list Term) : bool -> string -> bool :=
  match ts with
  | [] => fun _ _ => true
  | t :: ts' =>
      if starred t then
        fix star (bol : bool) (s : string) {struct s} : bool :=
          match_here ts' bol s ||
          match s with
          | String c r => atom_char (atom t) c && star false r
          | EmptyString => false
          end
      else fun bol s =>
        match atom t with
        | Bol => bol && match_here ts' bol s
        | Eol => bool_decide (s = EmptyString) && match_here ts' bol s
        | a =>
            match s with
            | String c r => atom_char a c && match_here ts' false r
            | EmptyString => false
            end
        end
  end.

(** Unanchored search: a match may start at any position. *)
Fixpoint search (ts : list Term) (bol : bool) (s : string) : bool :=
  match_here ts bol s ||
  match s with
  | String _ r => search ts false r
  | EmptyString => false
  end.

#[export] Instance engine : RegExpEngine :=
  {| regexp := list Term;
     RegExp := parse;
     test := fun ts s => search ts true s |}.

End RegExpFragment.

(** ** A deployment to run the handler on

    The configuration, key name, helpers and event of the repository's
    handler test, with stand-ins for the collaborators: a verifier that
    accepts one token, and a cookie parser. *)

Module Fixture.

Definition payload : Claims := {[ "userid" := JString "testuser" ]}.

Definition goodToken : string := "header.payload.signature".

(** Stands for [jwtVerify] bound to a key cache: the one signed token
    verifies, anything else (also no token at all) is rejected. *)
Definition jwtVerify_bound (store : option string) : Verifier :=
  fun token keyName options =>
    if bool_decide (token = Some goodToken ∧ keyName = Some "testkey")
    then Return payload
    else Throw (Rejected "invalid token").

(** A verifier that a configuration could carry in [config.jwtVerify]:
    it accepts whatever it is given. *)
Definition jwtVerify_lax : Verifier :=
  fun token keyName options => Return payload.

(** Stands for the cookie parser: the [Cookie] header entries, split at
    [;], each piece trimmed and cut at its first [=]. *)
Definition parseCookie (piece : string) : string * string :=
  match split "=" (trim piece) with
  | name :: rest => (name, join "=" rest)
  | [] => (EmptyString, EmptyString)
  end.

Definition parseCookies (hs : Headers) : gmap string string :=
  list_to_map
    (parseCookie <$> (concat ((fun e => split ";" (value e)) <$> default [] (hs !! "cookie")))).

Definition userPatterns (config : Config) (claims : Claims)
    : Completion (list string) :=
  Return [ "^/common/.*"; "^/user/" ++ string_of (get claims "userid") ++ "/.*" ].

(** A pattern provider whose first pattern is not a regular expression. *)
Definition brokenPatterns (config : Config) (claims : Claims)
    : Completion (list string) :=
  Return [ "*"; "^/common/.*" ].

Definition config : Config :=
  {| jwtVerifyOptions := Some {[ "algorithms" := JString "ES256" ]};
     clockTolerance := JUndefined;
     keyPairName := Some "testkey";
     publicKeyStore := Some "test:///store/";
     setCookieUri := Some "/setcookie";
     tokenCookieConfig := None;
     tokenCookieName := Some "testtoken";
     jwtVerify := None |}.

Definition altConfig : Config :=
  {| jwtVerifyOptions := Some {[ "algorithms" := JString "ES256" ]};
     clockTolerance := JUndefined;
     keyPairName := Some "testkey";
     publicKeyStore := Some "test:///store/";
     setCookieUri := Some "/setcookie";
     tokenCookieConfig := Some "Secure HttpOnly Path=/";
     tokenCookieName := Some "testtoken";
     jwtVerify := None |}.

(** The tags [cfg.jwtVerifyOptions.clockTolerance = 5],
    [cfg.jwtVerifyOptions.algorithms = ES256 ES384] and
    [cfg.jwtVerifyOptions.maxAge = 10s]. *)
Definition tolerantOptions : Obj :=
  {[ "clockTolerance" := JString "5";
     "algorithms" := JString "ES256 ES384";
     "maxAge" := JString "10s" ]}.

Definition tolerantConfig : Config :=
  with_jwtVerifyOptions config (Some tolerantOptions).

Definition getConfigFromTags (c : Config) (q : TagQuery) : Completion Config :=
  if bool_decide (arn q = "arn:test") then Return c
  else Throw (Rejected "ResourceNotFoundException").

Definition this : Helpers :=
  {| getSetCookieToken := Some getAuthBearerToken_helper;
     getAuthorizedPatterns := Some userPatterns |}.

Definition brokenThis : Helpers :=
  {| getSetCookieToken := Some getAuthBearerToken_helper;
     getAuthorizedPatterns := Some brokenPatterns |}.

Definition unboundThis : Helpers :=
  {| getSetCookieToken := None;
     getAuthorizedPatterns := Some userPatterns |}.

Definition exampleHeaders : Headers :=
  {[ "host" := [ {| key := "Host"; value := "d111111abcdef8.cloudfront.net" |} ];
     "user-agent" := [ {| key := "User-Agent"; value := "curl/7.66.0" |} ];
     "accept" := [ {| key := "accept"; value := "*/*" |} ] ]}.

Definition exampleRequest (m u : string) (extra : Headers) : Request :=
  {| clientIp := "203.0.113.178";
     headers := extra ∪ exampleHeaders;
     method := m;
     querystring := "";
     uri := u;
     body := ∅ |}.

Definition authorizationHeader (v : string) : Headers :=
  {[ "authorization" := [ {| key := "Authorization"; value := v |} ] ]}.

Definition cookieHeader (v : string) : Headers :=
  {[ "cookie" := [ {| key := "Cookie"; value := v |} ] ]}.

Definition event : Event := {| Records := [ {| cf := {| request := 1%positive |} |} ] |}.

Definition context : Context := {| invokedFunctionArn := "arn:test" |}.

Definition heap_of (r : Request) : Heap := {[ 1%positive := r ]}.

(** The request of the test "responds to set cookie": the example event's
    request, method [GET], with the [uri] set to [config.setCookieUri]. *)
Definition setCookieRequest : Request :=
  exampleRequest "GET" "/setcookie" (authorizationHeader "Bearer header.payload.signature").

Definition badTokenRequest : Request :=
  exampleRequest "POST" "/setcookie" (authorizationHeader "Bearer expired.token").

Definition commonRequest : Request :=
  exampleRequest "GET" "/common/test" (cookieHeader "testtoken=header.payload.signature").

Definition otherUserRequest : Request :=
  exampleRequest "GET" "/user/someotheruser/foo"
    (cookieHeader "testtoken=header.payload.signature").

Definition noCookieRequest : Request := exampleRequest "GET" "/common/foo" ∅.

(** The handler of the test, on the fragment engine. *)
Definition handler (c : Config) (helpers : Helpers) (r : Request)
    : Completion Outcome * World :=
  invoke (getConfigFromTags c) jwtVerify_bound parseCookies
    (engine := RegExpFragment.engine) helpers event context (heap_of r).

End Fixture.

(** * Properties *)

(** ** The string operations *)

Example split_empty : split " " "" = [""].
Proof. reflexivity. Qed.

Example split_three :
  split " " "Secure HttpOnly Path=/" = ["Secure"; "HttpOnly"; "Path=/"].
Proof. reflexivity. Qed.

Example split_double_space : split " " "a  b" = ["a"; ""; "b"].
Proof. reflexivity. Qed.

Example trim_both : trim "  a b   " = "a b".
Proof. reflexivity. Qed.

Example parseInt_seconds : parseInt (JString "30") = Int 30.
Proof. reflexivity. Qed.

Example parseInt_suffix : parseInt (JString " -12px") = Int (-12).
Proof. reflexivity. Qed.

Example parseInt_hex : parseInt (JString "0x1f") = Int 31.
Proof. reflexivity. Qed.

Example parseInt_none : parseInt (JString "s10") = NaN.
Proof. reflexivity. Qed.

Section StringFacts.

Lemma append_nil (t : string) : "" ++ t = t.
Proof. reflexivity. Qed.

Lemma append_cons c (r t : string) : String c r ++ t = String c (r ++ t).
Proof. reflexivity. Qed.

Lemma split_not_nil sep s : split sep s ≠ [].
Proof.
  destruct s as [|c r]; simpl; [done|].
  destruct (Ascii.eqb c sep); [done|].
  by destruct (split sep r).
Qed.

Lemma split_free sep s : free_of sep s = true → split sep s = [s].
Proof.
  induction s as [|c r IH]; simpl; [done|].
  intros [Hc Hr]%andb_prop.
  apply negb_true_iff in Hc. rewrite Hc, (IH Hr). done.
Qed.

Lemma split_app sep s t :
  free_of sep s = true → split sep (s ++ String sep t) = s :: split sep t.
Proof.
  induction s as [|c r IH]; rewrite ?append_nil, ?append_cons; simpl.
  - intros _. by rewrite Ascii.eqb_refl.
  - intros [Hc Hr]%andb_prop.
    apply negb_true_iff in Hc. rewrite Hc, (IH Hr). done.
Qed.

Lemma solid_free s : solid s = true → free_of " " s = true.
Proof.
  induction s as [|c r IH]; simpl; [done|].
  intros [Hc Hr]%andb_prop. rewrite (IH Hr), andb_true_r.
  destruct (Ascii.eqb_spec c " ") as [->|]; [discriminate Hc | done].
Qed.

Lemma join_cons sep d e ds : join sep (d :: e :: ds) = d ++ sep ++ join sep (e :: ds).
Proof. reflexivity. Qed.

(** Splitting at spaces undoes joining with spaces. *)
Lemma split_join ds :
  ds ≠ [] → Forall (fun d => free_of " " d = true) ds →
  split " " (join " " ds) = ds.
Proof.
  induction ds as [|d [|e ds] IH]; intros Hne Hall; [done| |].
  - simpl. apply split_free. by inversion Hall.
  - rewrite join_cons. inversion Hall as [|? ? Hd Hrest]; subst.
    change (" " ++ join " " (e :: ds)) with (String " " (join " " (e :: ds))).
    rewrite (split_app _ _ _ Hd). f_equal. by apply IH.
Qed.

Lemma trimStart_solid s : solid s = true → trimStart s = s.
Proof.
  destruct s as [|c r]; simpl; [done|].
  intros [Hc _]%andb_prop. apply negb_true_iff in Hc. by rewrite Hc.
Qed.

Lemma trimEnd_solid s : solid s = true → trimEnd s = s.
Proof.
  induction s as [|c r IH]; simpl; [done|].
  intros [Hc Hr]%andb_prop. apply negb_true_iff in Hc.
  rewrite (IH Hr), Hc. by destruct r.
Qed.

Lemma trimEnd_cons c r : trimEnd r ≠ "" → trimEnd (String c r) = String c (trimEnd r).
Proof. intros Hr. simpl. by destruct (trimEnd r). Qed.

Lemma trimEnd_app s t : trimEnd t ≠ "" → trimEnd (s ++ t) = s ++ trimEnd t.
Proof.
  intros Ht. induction s as [|c r IH]; rewrite ?append_nil, ?append_cons; [done|].
  simpl. rewrite IH. destruct (r ++ trimEnd t) eqn:E; [|done].
  destruct r; rewrite ?append_nil, ?append_cons in E; [done | discriminate].
Qed.

Lemma join_not_empty sep d ds : d ≠ "" → join sep (d :: ds) ≠ "".
Proof.
  intros Hd. destruct ds as [|e ds]; [done|].
  rewrite join_cons. destruct d; [done | by rewrite append_cons].
Qed.

Lemma trimEnd_join ds : Forall directive ds → trimEnd (join " " ds) = join " " ds.
Proof.
  induction ds as [|d [|e ds] IH]; intros Hall; [done| |].
  - simpl. apply trimEnd_solid. by inversion Hall as [|? ? [? ?] ?].
  - rewrite join_cons. inversion Hall as [|? ? [Hd Hd'] Hrest]; subst.
    change (" " ++ join " " (e :: ds)) with (String " " (join " " (e :: ds))).
    assert (Hr : trimEnd (join " " (e :: ds)) = join " " (e :: ds)) by by apply IH.
    assert (Hn : join " " (e :: ds) ≠ "").
    { apply join_not_empty. by inversion Hrest as [|? ? [? ?] ?]. }
    rewrite trimEnd_app, trimEnd_cons; rewrite ?Hr; try done.
    by rewrite trimEnd_cons; rewrite Hr.
Qed.

Lemma trimStart_join ds : Forall directive ds → trimStart (join " " ds) = join " " ds.
Proof.
  destruct ds as [|d ds]; [done|].
  intros Hall. inversion Hall as [|? ? [Hd Hd'] Hrest]; subst.
  destruct d as [|c d]; [done|]. simpl in Hd.
  apply andb_prop in Hd as [Hc _]. apply negb_true_iff in Hc.
  destruct ds; simpl; by rewrite Hc.
Qed.


End StringFacts.

(** ** The bearer extractor *)

Example bearer_token :
  getAuthBearerToken (Fixture.exampleRequest "POST" "/setcookie"
                        (Fixture.authorizationHeader "Bearer abc.def.ghi"))
  = Return (Some "abc.def.ghi").
Proof. reflexivity. Qed.

Example basic_scheme :
  getAuthBearerToken (Fixture.exampleRequest "POST" "/setcookie"
                        (Fixture.authorizationHeader "Basic dXNlcjpwdw=="))
  = Throw (Thrown "EINVAL").
Proof. reflexivity. Qed.

Example bearer_lowercase :
  getAuthBearerToken (Fixture.exampleRequest "POST" "/setcookie"
                        (Fixture.authorizationHeader "bearer abc"))
  = Throw (Thrown "EINVAL").
Proof. reflexivity. Qed.

Example bearer_alone :
  getAuthBearerToken (Fixture.exampleRequest "POST" "/setcookie"
                        (Fixture.authorizationHeader "Bearer"))
  = Return None.
Proof. reflexivity. Qed.

Example no_authorization_header :
  getAuthBearerToken (Fixture.exampleRequest "POST" "/setcookie" ∅) = Throw TypeError.
Proof. reflexivity. Qed.

(** The first two pieces of a header value [scheme token tail]. *)
Lemma split_scheme_token scheme tok tail :
  free_of " " scheme = true → free_of " " tok = true →
  tail = "" ∨ (∃ rest, tail = String " " rest) →
  ∃ more, split " " (scheme ++ " " ++ tok ++ tail) = scheme :: tok :: more.
Proof.
  intros Hs Ht Htail.
  change (" " ++ tok ++ tail) with (String " " (tok ++ tail)).
  rewrite (split_app _ _ _ Hs).
  destruct Htail as [-> | [rest ->]].
  - exists []. f_equal. replace (tok ++ "") with tok; [by apply split_free|].
    clear. induction tok as [|c r IH]; [done|]. by rewrite append_cons, <- IH.
  - exists (split " " rest). f_equal. by apply split_app.
Qed.

(** C5.  For a request that carries an [Authorization] header, the
    extractor splits the value of the first entry at spaces.  When the value
    is a scheme, a space and a token (up to the end or to the next space),
    it returns that token if the scheme is [Bearer] and throws ['EINVAL']
    for every other scheme; a value without any space is all scheme, and
    again only [Bearer] is let through. *)
Theorem getAuthBearerToken_scheme (request : Request) (entry : HeaderEntry)
    (others : list HeaderEntry) (scheme : string) :
  headers request !! "authorization" = Some (entry :: others) →
  free_of " " scheme = true →
  (∀ tok tail,
      free_of " " tok = true →
      tail = "" ∨ (∃ rest, tail = String " " rest) →
      value entry = scheme ++ " " ++ tok ++ tail →
      (scheme = "Bearer" → getAuthBearerToken request = Return (Some tok)) ∧
      (scheme ≠ "Bearer" → getAuthBearerToken request = Throw (Thrown "EINVAL"))) ∧
  (value entry = scheme →
      scheme ≠ "Bearer" → getAuthBearerToken request = Throw (Thrown "EINVAL")).
Proof.
  intros Hh Hs. unfold getAuthBearerToken. rewrite Hh. split.
  - intros tok tail Ht Htail Hv.
    destruct (split_scheme_token scheme tok tail Hs Ht Htail) as [more Hsplit].
    rewrite Hv, Hsplit. simpl. split; intros Hb.
    + by rewrite bool_decide_eq_true_2 by congruence.
    + by rewrite bool_decide_eq_false_2 by congruence.
  - intros Hv Hb. rewrite Hv, (split_free _ _ Hs). simpl.
    by rewrite bool_decide_eq_false_2 by congruence.
Qed.

Lemma getAuthBearerToken_scheme_witness :
  getAuthBearerToken (Fixture.exampleRequest "POST" "/setcookie"
                        (Fixture.authorizationHeader "Bearer abc.def.ghi trailing"))
  = Return (Some "abc.def.ghi").
Proof.
  refine (proj1 (proj1 (getAuthBearerToken_scheme
    (Fixture.exampleRequest "POST" "/setcookie"
       (Fixture.authorizationHeader "Bearer abc.def.ghi trailing"))
    {| key := "Authorization"; value := "Bearer abc.def.ghi trailing" |} []
    "Bearer" _ _) "abc.def.ghi" " trailing" _ _ _) _).
  - reflexivity.
  - reflexivity.
  - reflexivity.
  - right. by exists "trailing".
  - reflexivity.
  - reflexivity.
Defined.

(** ** The cookie response builder *)

Example setCookieResponse_plain :
  setCookieResponse {| SetCookie.cookieName := Some "testtoken";
                       SetCookie.cookieConfig := Some "";
                       SetCookie.token := Some "t" |}
  = {| status := "204"; statusDescription := "OK";
       response_headers := Some {[ "set-cookie" :=
         [ {| key := "Set-Cookie"; value := "testtoken=t" |} ] ]} |}.
Proof. reflexivity. Qed.

Lemma setCookieResponse_value name cfg tok :
  set_cookie_value (setCookieResponse
    {| SetCookie.cookieName := name; SetCookie.cookieConfig := cfg;
       SetCookie.token := tok |})
  = Some (to_string name ++ "=" ++ to_string tok ++
          (if truthy_string cfg then "; " ++ to_string cfg else "")).
Proof.
  unfold set_cookie_value, setCookieResponse; simpl.
  by rewrite lookup_singleton_eq.
Qed.

(** ** The gatekeeper *)

Example responds_to_set_cookie :
  (Fixture.handler Fixture.config Fixture.this Fixture.setCookieRequest).1
  = Return (Respond (setCookieResponse
      {| SetCookie.cookieName := Some "testtoken";
         SetCookie.cookieConfig := Some "";
         SetCookie.token := Some Fixture.goodToken |})).
Proof. reflexivity. Qed.

Example allows_on_authorized_pattern_match :
  (Fixture.handler Fixture.config Fixture.this Fixture.commonRequest).1
  = Return (PassThrough 1%positive).
Proof. reflexivity. Qed.

Example forbidden_on_no_pattern_match :
  (Fixture.handler Fixture.config Fixture.this Fixture.otherUserRequest).1
  = Return (Respond forbidden).
Proof. reflexivity. Qed.

Example forbidden_if_bad_token_on_set_cookie :
  (Fixture.handler Fixture.config Fixture.this Fixture.badTokenRequest).1
  = Return (Respond forbidden).
Proof. reflexivity. Qed.

(** Unfolds one invocation down to the collaborators' answers. *)
Ltac gate_unfold :=
  unfold invoke, run, frontAuth, try_catch, process, issuance, authorization,
    getAuthorizedRequest, call_jwtVerify, call_getAuthorizedPatterns,
    call_getSetCookieToken, event_request, deref, log, await, throw,
    mbind, M_bind, mret, M_ret in *;
  simpl in *.

(** Two answers to the same question are the same answer. *)
Ltac gate_agree :=
  repeat match goal with
         | H1 : ?x = ?a, H2 : ?x = ?b |- _ => rewrite H1 in H2; simplify_eq
         end.

(** Follows every branch of the invocation, naming each answer. *)
Ltac gate_cases :=
  gate_unfold;
  repeat (case_match; simpl in *; cbn [heap calls] in *; simplify_eq;
          try done; gate_agree);
  repeat match goal with
         | H : ?x = _ |- context [?x] => rewrite H
         end;
  simpl in *; gate_agree; try done.

(** Which of the calls made is the one at hand. *)
Ltac gate_member H :=
  repeat (apply elem_of_cons in H as [H|H]; simplify_eq);
  try (by apply elem_of_nil in H).

Ltac gate_find :=
  repeat first [ by apply list_elem_of_here | apply list_elem_of_further ].

Ltac gate_adjacent :=
  unfold adjacent;
  first [ by eexists [], _ | by eexists [_], _ | by eexists [_; _], _
        | by eexists [_; _; _], _ | by eexists [_; _; _; _], _ ].

Section GatekeeperFacts.

Context (getConfigFromTags : TagQuery -> Completion Config)
        (jwtVerify_bound : option string -> Verifier)
        (parseCookies : Headers -> gmap string string)
        `{engine : RegExpEngine}.

Local Abbreviation gate := (invoke getConfigFromTags jwtVerify_bound parseCookies).
Local Abbreviation prepared config := (add_jwtVerify jwtVerify_bound (swizzle config)).

(** The swizzle touches nothing but [jwtVerifyOptions] and [jwtVerify]. *)
Lemma prepared_setCookieUri config :
  setCookieUri (prepared config) = setCookieUri config.
Proof.
  unfold add_jwtVerify, swizzle.
  destruct (jwtVerifyOptions config); simpl;
    repeat (case_match; simpl); done.
Qed.

Lemma prepared_tokenCookieName config :
  tokenCookieName (prepared config) = tokenCookieName config.
Proof.
  unfold add_jwtVerify, swizzle.
  destruct (jwtVerifyOptions config); simpl;
    repeat (case_match; simpl); done.
Qed.

Lemma prepared_tokenCookieConfig config :
  tokenCookieConfig (prepared config) = tokenCookieConfig config.
Proof.
  unfold add_jwtVerify, swizzle.
  destruct (jwtVerifyOptions config); simpl;
    repeat (case_match; simpl); done.
Qed.

Lemma prepared_keyPairName config :
  keyPairName (prepared config) = keyPairName config.
Proof.
  unfold add_jwtVerify, swizzle.
  destruct (jwtVerifyOptions config); simpl;
    repeat (case_match; simpl); done.
Qed.

Lemma issues_prepared this config r :
  issues this (prepared config) r = issues this config r.
Proof. unfold issues. by rewrite prepared_setCookieUri. Qed.

(** The handler never throws. *)
Lemma frontAuth_total this event context h :
  ∃ out, (gate this event context h).1 = Return out.
Proof. gate_cases; eauto. Qed.

(** C2.  Whatever step of an invocation fails - the configuration does
    not resolve, the submitted token cannot be extracted, the token does
    not verify, the patterns cannot be derived, the pattern test throws or
    finds no match - the handler resolves to the one record with status
    403 and description Forbidden and nothing else in it. *)
Theorem frontAuth_failure_forbidden this event context h :
  (existsb failed (calls (gate this event context h).2) = true →
   (gate this event context h).1
   = Return (Respond {| status := "403"; statusDescription := "Forbidden";
                        response_headers := None |})) ∧
  (Records event !! 0%nat = None →
   (gate this event context h).1
   = Return (Respond {| status := "403"; statusDescription := "Forbidden";
                        response_headers := None |})) ∧
  (getAuthorizedPatterns this = None →
   ∀ l, (gate this event context h).1 ≠ Return (PassThrough l)).
Proof. repeat split; gate_cases. Qed.

Lemma issues_true this config r :
  issues this config r = true ↔
  setCookieUri config = Some (uri r) ∧ uri r ≠ "" ∧ is_Some (getSetCookieToken this).
Proof.
  unfold issues, truthy_string.
  rewrite !andb_true_iff, !bool_decide_eq_true.
  split.
  - intros [[Hu Hg] He]. rewrite <- He in Hu.
    apply negb_true_iff, String.eqb_neq in Hu. done.
  - intros (He & Hu & Hg). rewrite He. repeat split; [|done].
    by apply negb_true_iff, String.eqb_neq.
Qed.

(** C1, as the code has it.  Once the configuration has resolved, the
    handler takes the set-cookie branch - and asks the bound
    [getSetCookieToken] for the submitted token - exactly when a
    non-empty [setCookieUri] is configured, a [getSetCookieToken] helper
    is bound and the request's [uri] equals [setCookieUri]; the request's
    method plays no part.  Every other request goes to
    [getAuthorizedRequest]. *)
Theorem frontAuth_classification this event context h config rec r :
  getConfigFromTags (tagQuery context) = Return config →
  Records event !! 0%nat = Some rec →
  h !! request (cf rec) = Some r →
  (issuance_entered (calls (gate this event context h).2) = true ↔
     setCookieUri config = Some (uri r) ∧ uri r ≠ "" ∧
     is_Some (getSetCookieToken this)) ∧
  (authorization_entered (calls (gate this event context h).2) = true ↔
     ¬ (setCookieUri config = Some (uri r) ∧ uri r ≠ "" ∧
        is_Some (getSetCookieToken this))).
Proof.
  intros Hc He Hr. rewrite <- issues_true, <- (issues_prepared this config r).
  unfold issues, issuance_entered, authorization_entered.
  gate_cases;
    repeat match goal with
           | H : bool_decide _ = _ |- _ => rewrite H
           end;
    rewrite ?andb_true_r, ?andb_false_r; simpl;
    split; split; (done || (intros HH; by (elim HH || discriminate HH))).
Qed.

(** C10.  When the configuration has no [setCookieUri] (or an empty
    one), or no [getSetCookieToken] helper is bound, the set-cookie branch
    is never taken, whatever the request: the helper is not called, no
    cookie response is built, the only response the handler can give is
    the forbidden one, and a request that reaches the handler goes to
    [getAuthorizedRequest]. *)
Theorem frontAuth_no_issuance this event context h :
  (∀ config, getConfigFromTags (tagQuery context) = Return config →
             truthy_string (setCookieUri config) = false ∨
             getSetCookieToken this = None) →
  issuance_entered (calls (gate this event context h).2) = false ∧
  existsb is_setCookieResponse (calls (gate this event context h).2) = false ∧
  (∀ r, (gate this event context h).1 = Return (Respond r) → r = forbidden) ∧
  (∀ config rec r,
      getConfigFromTags (tagQuery context) = Return config →
      Records event !! 0%nat = Some rec →
      h !! request (cf rec) = Some r →
      authorization_entered (calls (gate this event context h).2) = true).
Proof.
  intros Hno. unfold issuance_entered, authorization_entered.
  destruct (getConfigFromTags (tagQuery context)) as [config|e] eqn:Hc.
  - destruct (Hno config eq_refl) as [Hu|Hg].
    + rewrite <- prepared_setCookieUri in Hu.
      repeat split; intros; gate_cases; congruence.
    + repeat split; intros; gate_cases; congruence.
  - repeat split; intros; gate_cases; congruence.
Qed.

(** C7.  When the handler lets a request through, what it returns is the
    reference to the request object of the event, and the heap is what it
    was: the same object, with every field as before. *)
Theorem frontAuth_pass_through this event context h l :
  (gate this event context h).1 = Return (PassThrough l) →
  (∃ rec, Records event !! 0%nat = Some rec ∧ request (cf rec) = l) ∧
  heap (gate this event context h).2 = h ∧
  (gate this event context h).2.(heap) !! l = h !! l.
Proof. gate_cases; intros; simplify_eq; eauto. Qed.

(** *** The pattern test *)

Lemma matches_true u p :
  matches u p = Return true ↔ ∃ rx, RegExp p = Some rx ∧ test rx u = true.
Proof.
  unfold matches. destruct (RegExp p) as [rx|]; split.
  - intros [= Ht]. eauto.
  - intros (rx' & [= <-] & ->). done.
  - done.
  - intros (rx' & [=] & _).
Qed.

(** [some] comes out [true] exactly when a pattern matches and every
    pattern before it compiles. *)
Lemma some_matches_true u ps :
  some (matches u) ps = Return true ↔
  ∃ i p, ps !! i = Some p ∧ matches u p = Return true ∧
         ∀ j q, j < i → ps !! j = Some q → is_Some (RegExp q).
Proof.
  induction ps as [|p ps IH]; simpl.
  - split; [done | by intros (i & q & ? & _)].
  - destruct (matches u p) as [[|]|e] eqn:Hm.
    + split; [|done]. intros _. exists 0, p. repeat split; [done|]. lia.
    + rewrite IH. split.
      * intros (i & q & Hq & Hmq & Hbefore). exists (S i), q.
        repeat split; [done..|]. intros [|j] q' Hj Hq'; simpl in Hq'.
        -- simplify_eq. unfold matches in Hm. destruct (RegExp q'); [by eexists | done].
        -- apply (Hbefore j); [lia | done].
      * intros ([|i] & q & Hq & Hmq & Hbefore); simpl in Hq.
        -- simplify_eq. congruence.
        -- exists i, q. repeat split; [done..|]. intros j q' Hj Hq'.
           apply (Hbefore (S j)); [lia | done].
    + split; [done|]. intros ([|i] & q & Hq & Hmq & Hbefore); simpl in Hq.
      * simplify_eq. congruence.
      * destruct (Hbefore 0 p) as [rx Hrx]; [lia | done |].
        unfold matches in Hm. by rewrite Hrx in Hm.
Qed.

(** When every pattern compiles the order does not matter. *)
Lemma some_matches_valid u ps :
  Forall (fun p => is_Some (RegExp p)) ps →
  (some (matches u) ps = Return true ↔ ∃ p, p ∈ ps ∧ matches u p = Return true).
Proof.
  intros Hall. rewrite some_matches_true. split.
  - intros (i & p & Hp & Hm & _). exists p. split; [|done].
    apply list_elem_of_lookup. eauto.
  - intros (p & [i Hp]%list_elem_of_lookup & Hm). exists i, p.
    repeat split; [done..|]. intros j q _ Hq.
    rewrite Forall_forall in Hall. apply Hall, list_elem_of_lookup. eauto.
Qed.

Lemma some_matches_nil u : some (matches u) [] = Return false.
Proof. reflexivity. Qed.


(** The outcome of [getAuthorizedRequest] once the token has verified and
    the patterns have been derived. *)
Lemma frontAuth_authorized this event context h config rec r v f claims patterns :
  getConfigFromTags (tagQuery context) = Return config →
  Records event !! 0%nat = Some rec →
  h !! request (cf rec) = Some r →
  issues this config r = false →
  jwtVerify (prepared config) = Some v →
  v (parseCookies (headers r) !! to_string (tokenCookieName config))
    (keyPairName config) (jwtVerifyOptions (prepared config)) = Return claims →
  getAuthorizedPatterns this = Some f →
  f (prepared config) claims = Return patterns →
  (gate this event context h).1 =
    match some (matches (uri r)) patterns with
    | Return true => Return (PassThrough (request (cf rec)))
    | _ => Return (Respond forbidden)
    end.
Proof.
  intros Hc He Hr Hi Hv Hok Hf Hps.
  rewrite <- issues_prepared in Hi.
  rewrite <- (prepared_tokenCookieName config), <- (prepared_keyPairName config) in Hok.
  unfold issues in Hi.
  gate_cases.
Qed.

(** C4, as the code has it.  Once the cookie's token has verified to the
    claims [claims] and the pattern provider has returned [patterns] for
    them, the request is let through exactly when some pattern matches
    the request's [uri] as an unanchored regular expression and every
    pattern before it in the list compiles: a pattern that is not a
    regular expression makes the test throw, and what comes after it is
    never tried.  When every pattern compiles this is: some pattern of
    the list matches.  Otherwise the answer is the forbidden response, in
    particular for the empty list. *)
Theorem frontAuth_pattern_match this event context h config rec r v f claims patterns :
  getConfigFromTags (tagQuery context) = Return config →
  Records event !! 0%nat = Some rec →
  h !! request (cf rec) = Some r →
  issues this config r = false →
  jwtVerify (prepared config) = Some v →
  v (parseCookies (headers r) !! to_string (tokenCookieName config))
    (keyPairName config) (jwtVerifyOptions (prepared config)) = Return claims →
  getAuthorizedPatterns this = Some f →
  f (prepared config) claims = Return patterns →
  ((gate this event context h).1 = Return (PassThrough (request (cf rec))) ↔
     ∃ i p rx, patterns !! i = Some p ∧ RegExp p = Some rx ∧ test rx (uri r) = true ∧
               ∀ j q, j < i → patterns !! j = Some q → is_Some (RegExp q)) ∧
  (Forall (fun p => is_Some (RegExp p)) patterns →
     ((gate this event context h).1 = Return (PassThrough (request (cf rec))) ↔
        ∃ p rx, p ∈ patterns ∧ RegExp p = Some rx ∧ test rx (uri r) = true)) ∧
  ((gate this event context h).1 = Return (PassThrough (request (cf rec))) ∨
   (gate this event context h).1 = Return (Respond forbidden)) ∧
  (patterns = [] → (gate this event context h).1 = Return (Respond forbidden)).
Proof.
  intros Hc He Hr Hi Hv Hok Hf Hps.
  rewrite (frontAuth_authorized this event context h config rec r v f claims patterns)
    by done.
  assert (Hiff : match some (matches (uri r)) patterns with
                 | Return true => Return (PassThrough (request (cf rec)))
                 | _ => Return (Respond forbidden)
                 end = Return (PassThrough (request (cf rec)))
                 ↔ some (matches (uri r)) patterns = Return true).
  { destruct (some (matches (uri r)) patterns) as [[|]|]; split; done. }
  repeat split.
  - intros Hx%Hiff%some_matches_true. destruct Hx as (i & p & Hp & Hm & Hb).
    apply matches_true in Hm as (rx & Hrx & Ht). eauto 10.
  - intros (i & p & rx & Hp & Hrx & Ht & Hb). apply Hiff, some_matches_true.
    exists i, p. repeat split; [done| |done]. apply matches_true. eauto.
  - intros Hx%Hiff. apply some_matches_valid in Hx as (p & Hp & Hm); [|done].
    apply matches_true in Hm as (rx & Hrx & Ht). eauto.
  - intros (p & rx & Hp & Hrx & Ht). apply Hiff, some_matches_valid; [done|].
    exists p. split; [done|]. apply matches_true. eauto.
  - destruct (some (matches (uri r)) patterns) as [[|]|]; eauto.
  - by intros ->.
Qed.

(** *** The set-cookie branch *)

Lemma or_empty_some s : or_empty (Some s) = s.
Proof. unfold or_empty; simpl. by destruct s. Qed.



(** *** The authorization branch without a cookie *)


(** *** Nothing is done with a token that has not verified *)

(** C3.  In every invocation: [getAuthorizedPatterns] is only ever called
    with the claims that the verifier returned for the call just before
    it, and the cookie response is only ever built for a token that the
    call just before it verified; a response that carries headers is the
    builder's, and a pass-through has had its patterns derived.  When a
    verification fails, the outcome is the forbidden response, which has
    no [Set-Cookie] header, and neither the pattern provider nor the
    builder is reached.  The answer recorded for a verification is the
    answer of the configured verifier. *)
Theorem frontAuth_verified_only this event context h :
  (∀ claims ps,
      CallGetAuthorizedPatterns claims ps ∈ calls (gate this event context h).2 →
      ∃ token kp o,
        adjacent (CallJwtVerify token kp o (Return claims))
                 (CallGetAuthorizedPatterns claims ps)
                 (calls (gate this event context h).2)) ∧
  (∀ name cfg tok,
      CallSetCookieResponse name cfg tok ∈ calls (gate this event context h).2 →
      ∃ kp o claims,
        adjacent (CallJwtVerify tok kp o (Return claims))
                 (CallSetCookieResponse name cfg tok)
                 (calls (gate this event context h).2)) ∧
  (∀ resp,
      (gate this event context h).1 = Return (Respond resp) →
      is_Some (response_headers resp) →
      ∃ name cfg tok,
        CallSetCookieResponse name cfg tok ∈ calls (gate this event context h).2 ∧
        resp = setCookieResponse {| SetCookie.cookieName := name;
                                    SetCookie.cookieConfig := Some cfg;
                                    SetCookie.token := tok |}) ∧
  (∀ l,
      (gate this event context h).1 = Return (PassThrough l) →
      ∃ claims ps,
        CallGetAuthorizedPatterns claims (Return ps)
          ∈ calls (gate this event context h).2) ∧
  (∀ token kp o e,
      CallJwtVerify token kp o (Throw e) ∈ calls (gate this event context h).2 →
      (gate this event context h).1 = Return (Respond forbidden) ∧
      set_cookie_value forbidden = None ∧
      existsb is_getAuthorizedPatterns (calls (gate this event context h).2) = false ∧
      existsb is_setCookieResponse (calls (gate this event context h).2) = false) ∧
  (∀ config token kp o result,
      getConfigFromTags (tagQuery context) = Return config →
      CallJwtVerify token kp o result ∈ calls (gate this event context h).2 →
      ∃ v, jwtVerify (prepared config) = Some v ∧ result = v token kp o).
Proof.
  repeat apply conj.
  - gate_cases; intros claims ps Hin; gate_member Hin; do 3 eexists; gate_adjacent.
  - gate_cases; intros name cfg tok Hin; gate_member Hin; do 3 eexists; gate_adjacent.
  - gate_cases; intros resp Hresp [hs Hhs]; simplify_eq; try done;
      do 3 eexists; (split; [gate_find | done]).
  - gate_cases; intros l Hl; simplify_eq; do 2 eexists; gate_find.
  - gate_cases; intros token kp o err Hin; gate_member Hin; gate_agree; done.
  - intros config token kp o result Hc. revert token kp o result.
    gate_cases; intros token kp o result Hin; gate_member Hin; eauto.
Qed.

End GatekeeperFacts.

(** ** The swizzle of the verify options *)


(** C9, where the code departs from it.  With the tags
    [cfg.jwtVerifyOptions.clockTolerance = 5],
    [cfg.jwtVerifyOptions.algorithms = ES256 ES384] and
    [cfg.jwtVerifyOptions.maxAge = 10s], the options that reach the verifier
    have the algorithms as a list and [maxAge] untouched, but
    [clockTolerance] is still the string ["5"], not the number 5: the
    guard of the conversion tests the type of [config.clockTolerance], which
    the tags never define, where it means [jwtVerifyOptions.clockTolerance]. *)
Theorem swizzle_clockTolerance_not_converted :
  jwtVerifyOptions (swizzle Fixture.tolerantConfig)
  = Some {[ "clockTolerance" := JString "5";
            "algorithms" := JArray ["ES256"; "ES384"];
            "maxAge" := JString "10s" ]} ∧
  verify_options
    (calls (Fixture.handler Fixture.tolerantConfig Fixture.this Fixture.commonRequest).2)
  = [ Some {[ "clockTolerance" := JString "5";
              "algorithms" := JArray ["ES256"; "ES384"];
              "maxAge" := JString "10s" ]} ] ∧
  parseInt (JString "5") = Int 5.
Proof. repeat split; vm_compute; reflexivity. Qed.

(** ** The handler of the repository's test *)

Lemma frontAuth_failure_forbidden_witness :
  (Fixture.handler Fixture.config Fixture.this Fixture.badTokenRequest).1
  = Return (Respond {| status := "403"; statusDescription := "Forbidden";
                       response_headers := None |}).
Proof.
  apply (proj1 (frontAuth_failure_forbidden
    (Fixture.getConfigFromTags Fixture.config) Fixture.jwtVerify_bound
    Fixture.parseCookies (engine := RegExpFragment.engine)
    Fixture.this Fixture.event Fixture.context
    (Fixture.heap_of Fixture.badTokenRequest))).
  vm_compute. reflexivity.
Defined.

Lemma frontAuth_pass_through_witness :
  (∃ rec, Records Fixture.event !! 0%nat = Some rec ∧ request (cf rec) = 1%positive) ∧
  heap (Fixture.handler Fixture.config Fixture.this Fixture.commonRequest).2
  = Fixture.heap_of Fixture.commonRequest ∧
  heap (Fixture.handler Fixture.config Fixture.this Fixture.commonRequest).2 !! 1%positive
  = Fixture.heap_of Fixture.commonRequest !! 1%positive.
Proof.
  apply (frontAuth_pass_through
    (Fixture.getConfigFromTags Fixture.config) Fixture.jwtVerify_bound
    Fixture.parseCookies (engine := RegExpFragment.engine)
    Fixture.this Fixture.event Fixture.context
    (Fixture.heap_of Fixture.commonRequest) 1%positive).
  vm_compute. reflexivity.
Defined.

(** The request of the test "responds to set cookie" is a [GET], and it is
    answered on the set-cookie branch: the statement that the branch is
    taken only for a [POST] does not hold. *)
Lemma frontAuth_issuance_on_get :
  ¬ (issuance_entered
       (calls (Fixture.handler Fixture.config Fixture.this Fixture.setCookieRequest).2) = true
     ↔ method Fixture.setCookieRequest = "POST" ∧
       setCookieUri Fixture.config = Some (uri Fixture.setCookieRequest)).
Proof.
  intros [Hto _].
  assert (Hin : issuance_entered
    (calls (Fixture.handler Fixture.config Fixture.this Fixture.setCookieRequest).2) = true)
    by (vm_compute; reflexivity).
  destruct (Hto Hin) as [Hm _]. discriminate Hm.
Qed.

Lemma frontAuth_classification_witness :
  (issuance_entered
     (calls (Fixture.handler Fixture.config Fixture.this Fixture.setCookieRequest).2) = true
   ↔ setCookieUri Fixture.config = Some (uri Fixture.setCookieRequest) ∧
     uri Fixture.setCookieRequest ≠ "" ∧
     is_Some (getSetCookieToken Fixture.this)) ∧
  (authorization_entered
     (calls (Fixture.handler Fixture.config Fixture.this Fixture.setCookieRequest).2) = true
   ↔ ¬ (setCookieUri Fixture.config = Some (uri Fixture.setCookieRequest) ∧
        uri Fixture.setCookieRequest ≠ "" ∧
        is_Some (getSetCookieToken Fixture.this))).
Proof.
  apply (frontAuth_classification
    (Fixture.getConfigFromTags Fixture.config) Fixture.jwtVerify_bound
    Fixture.parseCookies (engine := RegExpFragment.engine)
    Fixture.this Fixture.event Fixture.context
    (Fixture.heap_of Fixture.setCookieRequest)
    Fixture.config {| cf := {| request := 1%positive |} |} Fixture.setCookieRequest).
  - reflexivity.
  - reflexivity.
  - vm_compute. reflexivity.
Defined.

Lemma frontAuth_no_issuance_witness :
  issuance_entered
    (calls (Fixture.handler Fixture.config Fixture.unboundThis Fixture.setCookieRequest).2)
  = false ∧
  authorization_entered
    (calls (Fixture.handler Fixture.config Fixture.unboundThis Fixture.setCookieRequest).2)
  = true.
Proof.
  destruct (frontAuth_no_issuance
    (Fixture.getConfigFromTags Fixture.config) Fixture.jwtVerify_bound
    Fixture.parseCookies (engine := RegExpFragment.engine)
    Fixture.unboundThis Fixture.event Fixture.context
    (Fixture.heap_of Fixture.setCookieRequest)) as (Hno & _ & _ & Hauth).
  - intros config _. right. reflexivity.
  - split; [exact Hno|].
    apply (Hauth Fixture.config {| cf := {| request := 1%positive |} |}
             Fixture.setCookieRequest).
    + reflexivity.
    + reflexivity.
    + vm_compute. reflexivity.
Defined.

Lemma frontAuth_verified_only_witness :
  (Fixture.handler Fixture.config Fixture.this Fixture.badTokenRequest).1
  = Return (Respond forbidden) ∧
  existsb is_setCookieResponse
    (calls (Fixture.handler Fixture.config Fixture.this Fixture.badTokenRequest).2)
  = false.
Proof.
  destruct (frontAuth_verified_only
    (Fixture.getConfigFromTags Fixture.config) Fixture.jwtVerify_bound
    Fixture.parseCookies (engine := RegExpFragment.engine)
    Fixture.this Fixture.event Fixture.context
    (Fixture.heap_of Fixture.badTokenRequest)) as (_ & _ & _ & _ & Hfail & _).
  destruct (Hfail (Some "expired.token") (Some "testkey")
              (Some {[ "algorithms" := JArray ["ES256"] ]})
              (Rejected "invalid token")) as (Hout & _ & _ & Hno).
  - vm_compute. gate_find.
  - split; [exact Hout | exact Hno].
Defined.

Example fragment_common_match :
  (fun rx => RegExpFragment.search rx true "/common/x") <$> RegExpFragment.parse "^/common/.*"
  = Some true.
Proof. reflexivity. Qed.

Example fragment_anchor_miss :
  (fun rx => RegExpFragment.search rx true "/x/common/") <$> RegExpFragment.parse "^/common/.*"
  = Some false.
Proof. reflexivity. Qed.

Example fragment_unanchored :
  (fun rx => RegExpFragment.search rx true "/x/common/") <$> RegExpFragment.parse "/common/"
  = Some true.
Proof. reflexivity. Qed.

Example fragment_end_anchor :
  (fun rx => RegExpFragment.search rx true "/a/b.png") <$> RegExpFragment.parse ".png$"
  = Some true.
Proof. reflexivity. Qed.

Example fragment_nothing_to_repeat :
  RegExpFragment.in_fragment "*" = true ∧ RegExpFragment.parse "*" = None.
Proof. split; reflexivity. Qed.

(** The provider's first pattern is [*], which is not a regular
    expression: the test throws on it and the request is refused, although
    the second pattern matches the request's [uri]. *)
Lemma frontAuth_broken_pattern_denies :
  Fixture.brokenPatterns Fixture.config Fixture.payload = Return ["*"; "^/common/.*"] ∧
  ¬ ((Fixture.handler Fixture.config Fixture.brokenThis Fixture.commonRequest).1
       = Return (PassThrough 1%positive)
     ↔ ∃ p rx, p ∈ ["*"; "^/common/.*"] ∧
               RegExp (RegExpEngine := RegExpFragment.engine) p = Some rx ∧
               test rx (uri Fixture.commonRequest) = true).
Proof.
  split; [reflexivity|]. intros [_ Hfrom].
  assert (Hout : (Fixture.handler Fixture.config Fixture.brokenThis Fixture.commonRequest).1
                 = Return (Respond forbidden)) by (vm_compute; reflexivity).
  rewrite Hout in Hfrom. discriminate Hfrom.
  eexists "^/common/.*", _. split; [gate_find|]. split; reflexivity.
Qed.

Lemma frontAuth_pattern_match_witness :
  (Fixture.handler Fixture.config Fixture.this Fixture.commonRequest).1
    = Return (PassThrough 1%positive)
  ↔ ∃ p rx, p ∈ ["^/common/.*"; "^/user/testuser/.*"] ∧
            RegExp (RegExpEngine := RegExpFragment.engine) p = Some rx ∧
            test rx (uri Fixture.commonRequest) = true.
Proof.
  refine (proj1 (proj2 (frontAuth_pattern_match
    (Fixture.getConfigFromTags Fixture.config) Fixture.jwtVerify_bound
    Fixture.parseCookies (engine := RegExpFragment.engine)
    Fixture.this Fixture.event Fixture.context
    (Fixture.heap_of Fixture.commonRequest)
    Fixture.config {| cf := {| request := 1%positive |} |} Fixture.commonRequest
    (Fixture.jwtVerify_bound (Some "test:///store/")) Fixture.userPatterns
    Fixture.payload ["^/common/.*"; "^/user/testuser/.*"]
    _ _ _ _ _ _ _ _)) _).
  - reflexivity.
  - reflexivity.
  - vm_compute. reflexivity.
  - vm_compute. reflexivity.
  - reflexivity.
  - vm_compute. reflexivity.
  - reflexivity.
  - vm_compute. reflexivity.
  - repeat constructor; by eexists.
Defined.



(** The missing-cookie rejection is the verifier's: with a verifier in
    [config.jwtVerify] that accepts whatever it is given, the same request
    without a cookie is let through. *)
Example lax_verifier_lets_through :
  (Fixture.handler (with_jwtVerify Fixture.config (Some Fixture.jwtVerify_lax))
     Fixture.this Fixture.noCookieRequest).1
  = Return (PassThrough 1%positive).
Proof. vm_compute. reflexivity. Qed.


(** * Further properties of the code *)

(** ** Splitting and joining *)

Lemma split_pieces_free sep s p : p ∈ split sep s → free_of sep p = true.
Proof.
  revert p. induction s as [|c r IH]; simpl; intros p Hp.
  - apply list_elem_of_singleton in Hp as ->. done.
  - destruct (Ascii.eqb c sep) eqn:Hc.
    + apply elem_of_cons in Hp as [->|Hp]; [done | by apply IH].
    + destruct (split sep r) as [|h t] eqn:Hs.
      * by destruct (split_not_nil sep r).
      * apply elem_of_cons in Hp as [->|Hp].
        -- simpl. rewrite Hc. simpl. apply IH. apply list_elem_of_here.
        -- apply IH. by apply list_elem_of_further.
Qed.

(** Joining the pieces with the separator gives the string back. *)
Lemma join_split sep s : join (String sep "") (split sep s) = s.
Proof.
  induction s as [|c r IH]; simpl; [done|].
  destruct (Ascii.eqb_spec c sep) as [->|Hc].
  - destruct (split sep r) as [|h t] eqn:Hs; [by destruct (split_not_nil sep r)|].
    rewrite join_cons, IH. by rewrite append_nil.
  - destruct (split sep r) as [|h t] eqn:Hs; [by destruct (split_not_nil sep r)|].
    destruct t as [|h' t].
    + simpl in *. by rewrite IH.
    + rewrite join_cons in *. rewrite append_cons. by rewrite IH.
Qed.

(** The first piece is what comes before the first separator. *)
Lemma split_head sep s p more :
  split sep s = p :: more →
  free_of sep p = true ∧
  ((more = [] ∧ s = p) ∨ (∃ t, more = split sep t ∧ s = p ++ String sep t)).
Proof.
  intros Hs. split.
  - apply (split_pieces_free sep s). rewrite Hs. apply list_elem_of_here.
  - revert p more Hs. induction s as [|c r IH]; simpl; intros p more Hs.
    + simplify_eq. by left.
    + destruct (Ascii.eqb_spec c sep) as [->|Hc].
      * simplify_eq. right. exists r. by rewrite append_nil.
      * destruct (split sep r) as [|h t] eqn:Hr; [by destruct (split_not_nil sep r)|].
        simplify_eq. destruct (IH h more eq_refl) as [[-> ->]|(t' & -> & ->)].
        -- by left.
        -- right. exists t'. by rewrite append_cons.
Qed.

(** ** The bearer extractor, read backwards *)

(** X1.  When the extractor returns a token, the first [Authorization]
    entry reads [Bearer], a space, that token, and then either nothing or a
    space and more; the token has no space in it. *)
Theorem getAuthBearerToken_returns (request : Request) (tok : string) :
  getAuthBearerToken request = Return (Some tok) →
  ∃ entry others tail,
    headers request !! "authorization" = Some (entry :: others) ∧
    value entry = "Bearer " ++ tok ++ tail ∧
    (tail = "" ∨ ∃ rest, tail = String " " rest) ∧
    free_of " " tok = true.
Proof.
  unfold getAuthBearerToken.
  destruct (headers request !! "authorization") as [[|entry others]|] eqn:Hh; [done| |done].
  destruct (split " " (value entry)) as [|scheme more] eqn:Hs;
    [by destruct (split_not_nil " " (value entry))|].
  simpl. case_bool_decide as Hb; [|done]. injection Hb as ->.
  destruct more as [|tok' more]; [done|]. simpl. intros [= ->].
  exists entry, others.
  destruct (split_head _ _ _ _ Hs) as [_ [[? _]|(t & Ht & Hv)]]; [done|].
  symmetry in Ht. destruct (split_head _ _ _ _ Ht) as [Hfree [[_ ->]|(t' & _ & ->)]].
  - exists "". repeat split; [|by left|done].
    rewrite Hv. clear. change ("Bearer " ++ tok ++ "") with ("Bearer" ++ String " " (tok ++ "")).
    f_equal. f_equal. induction tok as [|c r IH]; [done|]. by rewrite append_cons, <- IH.
  - exists (String " " t'). repeat split; [|right; eauto|done].
    by rewrite Hv.
Qed.

Lemma getAuthBearerToken_returns_witness :
  ∃ entry others tail,
    headers Fixture.setCookieRequest !! "authorization" = Some (entry :: others) ∧
    value entry = "Bearer " ++ Fixture.goodToken ++ tail ∧
    (tail = "" ∨ ∃ rest, tail = String " " rest) ∧
    free_of " " Fixture.goodToken = true.
Proof.
  apply (getAuthBearerToken_returns Fixture.setCookieRequest Fixture.goodToken).
  vm_compute. reflexivity.
Defined.

(** X2.  The extractor throws ['EINVAL'] exactly when the first
    [Authorization] entry is neither [Bearer] alone nor [Bearer] followed by
    a space; it returns [undefined] exactly when the entry is [Bearer]
    alone; and it throws a [TypeError] exactly when the request has no
    [Authorization] entry to read. *)
Theorem getAuthBearerToken_outcomes (request : Request) :
  (getAuthBearerToken request = Throw (Thrown "EINVAL") ↔
     ∃ entry others,
       headers request !! "authorization" = Some (entry :: others) ∧
       value entry ≠ "Bearer" ∧ ∀ t, value entry ≠ "Bearer " ++ t) ∧
  (getAuthBearerToken request = Return None ↔
     ∃ entry others,
       headers request !! "authorization" = Some (entry :: others) ∧
       value entry = "Bearer") ∧
  (getAuthBearerToken request = Throw TypeError ↔
     headers request !! "authorization" = None ∨
     headers request !! "authorization" = Some []).
Proof.
  unfold getAuthBearerToken.
  destruct (headers request !! "authorization") as [[|entry others]|] eqn:Hh.
  - repeat split; try done; try (by intros (? & ? & ? & _)); eauto.
  - destruct (split " " (value entry)) as [|scheme more] eqn:Hs;
      [by destruct (split_not_nil " " (value entry))|].
    destruct (split_head _ _ _ _ Hs) as [Hfree Hcase]. simpl.
    assert (Hnot : ∀ t, "Bearer" ≠ "Bearer " ++ t) by (by intros t).
    case_bool_decide as Hb.
    + injection Hb as ->. split; [|split].
      * split; [done|]. intros (e' & o' & [= <- <-] & Hne & Hpre).
        destruct Hcase as [[_ Hv]|(t & _ & Hv)]; [done|]. by destruct (Hpre t).
      * split.
        -- intros Hnone. exists entry, others. split; [done|].
           destruct Hcase as [[_ Hv]|(t & -> & Hv)]; [done|].
           destruct (split " " t) eqn:Ht; [by destruct (split_not_nil " " t)|done].
        -- intros (e' & o' & [= <- <-] & Hv). rewrite Hv in Hs. by injection Hs as <-.
      * split; [done | by intros [|]].
    + split; [|split].
      * split; [|done]. intros _. exists entry, others. split; [done|].
        destruct Hcase as [[_ Hv]|(t & _ & Hv)]; rewrite Hv.
        -- split; [congruence|]. intros t Ht. rewrite Ht in Hfree. done.
        -- split.
           ++ intros Ht. rewrite Hv, Ht in Hs. simpl in Hs. congruence.
           ++ intros t' Ht. rewrite Hv in Hs.
              change ("Bearer " ++ t') with ("Bearer" ++ String " " t') in Ht.
              rewrite Ht, (split_app " " "Bearer" t' eq_refl) in Hs. congruence.
      * split; [done|]. intros (e' & o' & [= <- <-] & Hv). rewrite Hv in Hs.
        simpl in Hs. congruence.
      * split; [done | by intros [|]].
  - repeat split; try done; try (by intros (? & ? & ? & _)); eauto.
Qed.

(** ** The swizzle, once more *)

Lemma get_insert (o : Obj) k v : get (<[k := v]> o) k = v.
Proof. unfold get. by rewrite lookup_insert_eq. Qed.

Lemma trim_join ds : Forall directive ds → trim (join " " ds) = join " " ds.
Proof. intros Hds. unfold trim. by rewrite trimStart_join, trimEnd_join. Qed.

Lemma trimStart_blank s : blank s = true → trimStart s = "".
Proof.
  induction s as [|c r IH]; simpl; [done|].
  intros [Hc Hr]%andb_prop. rewrite Hc. by apply IH.
Qed.

Lemma trim_blank s : blank s = true → trim s = "".
Proof. intros Hs. unfold trim. by rewrite trimStart_blank. Qed.

Lemma truthy_join d ds : Forall directive (d :: ds) → truthy (JString (join " " (d :: ds))) = true.
Proof.
  intros Hds. simpl. apply negb_true_iff, String.eqb_neq.
  apply join_not_empty. by inversion Hds as [|? ? [? ?] ?].
Qed.

(** X3.  A tag [cfg.jwtVerifyOptions.algorithms] that lists algorithm
    names with single spaces between them reaches the verifier as the list
    of those names.  A tag of white space only becomes the list holding one
    empty name, and an empty tag stays the empty string. *)
Theorem swizzle_algorithms config o :
  jwtVerifyOptions config = Some o →
  ∃ o', jwtVerifyOptions (swizzle config) = Some o' ∧
    (∀ name names, Forall directive (name :: names) →
       get o "algorithms" = JString (join " " (name :: names)) →
       get o' "algorithms" = JArray (name :: names)) ∧
    (∀ s, blank s = true → s ≠ "" → get o "algorithms" = JString s →
       get o' "algorithms" = JArray [""]) ∧
    (get o "algorithms" = JString "" → get o' "algorithms" = JString "").
Proof.
  intros Ho. unfold swizzle. rewrite Ho. eexists. split; [reflexivity|].
  set (o1 := if truthy (get o "clockTolerance") &&
                String.eqb (typeof (clockTolerance config)) "string"
             then <["clockTolerance" := JNumber (parseInt (get o "clockTolerance"))]> o
             else o).
  assert (Hsame : get o1 "algorithms" = get o "algorithms").
  { unfold o1, get. case_match; [by rewrite lookup_insert_ne|done]. }
  rewrite Hsame. repeat split.
  - intros name names Hds Hs. rewrite Hs, truthy_join by done.
    cbn [typeof andb string_of]. rewrite String.eqb_refl.
    unfold get. rewrite lookup_insert_eq. cbv [default from_option id].
    rewrite trim_join by done. f_equal. apply split_join; [done|].
    eapply Forall_impl; [exact Hds|]. intros x [Hx _]. by apply solid_free.
  - intros s Hb Hne Hs. rewrite Hs. cbn [truthy typeof string_of].
    apply String.eqb_neq in Hne. rewrite Hne, String.eqb_refl. cbn [negb andb].
    unfold get. rewrite lookup_insert_eq. cbv [default from_option id]. by rewrite trim_blank.
  - intros Hs. rewrite Hs. simpl. by rewrite Hsame.
Qed.

Lemma swizzle_algorithms_witness :
  ∃ o', jwtVerifyOptions (swizzle Fixture.tolerantConfig) = Some o' ∧
        get o' "algorithms" = JArray ["ES256"; "ES384"].
Proof.
  destruct (swizzle_algorithms Fixture.tolerantConfig Fixture.tolerantOptions eq_refl)
    as (o' & Ho' & Hnames & _).
  exists o'. split; [exact Ho'|].
  apply (Hnames "ES256" ["ES384"]).
  - repeat constructor; done.
  - vm_compute. reflexivity.
Defined.

(** X4.  Preparing a configuration that has been prepared already changes
    nothing, so a configuration object that is kept between invocations is
    swizzled once: the listed algorithms are not split again and a verifier
    that is in place stays.  (The top-level [config.clockTolerance] is
    taken not to be a string, as the tags leave it.) *)
Theorem prepare_idempotent (jwtVerify_bound : option string -> Verifier) config :
  typeof (clockTolerance config) ≠ "string" →
  add_jwtVerify jwtVerify_bound (swizzle (add_jwtVerify jwtVerify_bound (swizzle config)))
  = add_jwtVerify jwtVerify_bound (swizzle config).
Proof.
  intros Hty%String.eqb_neq.
  assert (Hone : ∀ c o, jwtVerifyOptions c = Some o →
            String.eqb (typeof (clockTolerance c)) "string" = false →
            swizzle c = with_jwtVerifyOptions c (Some
              (if truthy (get o "algorithms") &&
                  String.eqb (typeof (get o "algorithms")) "string"
               then <["algorithms" :=
                        JArray (split " " (trim (string_of (get o "algorithms"))))]> o
               else o))).
  { intros c o Ho Hc. unfold swizzle. by rewrite Ho, Hc, andb_false_r. }
  assert (Hswz : swizzle (swizzle config) = swizzle config).
  { destruct (jwtVerifyOptions config) as [o|] eqn:Ho.
    - rewrite (Hone config o Ho Hty).
      erewrite Hone; [|reflexivity|exact Hty].
      destruct (truthy (get o "algorithms") &&
                String.eqb (typeof (get o "algorithms")) "string") eqn:Hc.
      + rewrite !get_insert. reflexivity.
      + rewrite Hc. reflexivity.
    - assert (Hid : swizzle config = config) by (unfold swizzle; by rewrite Ho).
      by rewrite !Hid. }
  unfold add_jwtVerify.
  destruct (jwtVerify (swizzle config)) as [v|] eqn:Hv.
  - by rewrite Hswz, Hv.
  - assert (Hcomm : ∀ c v, swizzle (with_jwtVerify c v) = with_jwtVerify (swizzle c) v).
    { intros [o ct kp ps su tc tn jv] v. unfold swizzle, with_jwtVerify. simpl.
      destruct o; reflexivity. }
    by rewrite Hcomm, Hswz.
Qed.

Lemma prepare_idempotent_witness :
  add_jwtVerify Fixture.jwtVerify_bound
    (swizzle (add_jwtVerify Fixture.jwtVerify_bound (swizzle Fixture.tolerantConfig)))
  = add_jwtVerify Fixture.jwtVerify_bound (swizzle Fixture.tolerantConfig).
Proof. apply prepare_idempotent. vm_compute. discriminate. Defined.

(** ** The handler, further *)

Section GatekeeperMore.

Context (getConfigFromTags : TagQuery -> Completion Config)
        (jwtVerify_bound : option string -> Verifier)
        (parseCookies : Headers -> gmap string string)
        `{engine : RegExpEngine}.

Local Abbreviation gate := (invoke getConfigFromTags jwtVerify_bound parseCookies).
Local Abbreviation prepared config := (add_jwtVerify jwtVerify_bound (swizzle config)).

(** X5.  Every invocation resolves, and to one of three things: the
    forbidden response, the request object of the event, or a response
    made by the cookie builder.  So a response given by the handler has
    status 403 or 204. *)
Theorem frontAuth_outcomes this event context h :
  ∃ out, (gate this event context h).1 = Return out ∧
    (out = Respond forbidden ∨
     (∃ rec, Records event !! 0%nat = Some rec ∧ out = PassThrough (request (cf rec))) ∨
     (∃ args, out = Respond (setCookieResponse args))) ∧
    (∀ resp, out = Respond resp → status resp = "403" ∨ status resp = "204").
Proof.
  gate_cases; eexists; (split; [reflexivity|]); split;
    try (by left);
    try (by right; left; eexists);
    try (by right; right; eexists);
    intros resp [= <-]; auto.
Qed.

(** X6.  The two branches exclude each other: in an invocation that asks
    [getSetCookieToken] for a token, the cookies are not parsed and the
    pattern provider is not consulted - a token that verifies gets its
    cookie whatever it authorizes; in an invocation that parses the
    cookies, [getSetCookieToken] is not called and no cookie response is
    built. *)
Theorem frontAuth_flows_exclusive this event context h :
  (issuance_entered (calls (gate this event context h).2) = true →
     authorization_entered (calls (gate this event context h).2) = false ∧
     existsb is_getAuthorizedPatterns (calls (gate this event context h).2) = false) ∧
  (authorization_entered (calls (gate this event context h).2) = true →
     issuance_entered (calls (gate this event context h).2) = false ∧
     existsb is_setCookieResponse (calls (gate this event context h).2) = false).
Proof. unfold issuance_entered, authorization_entered. split; gate_cases. Qed.

(** X7.  When the configuration does not resolve, the handler answers
    forbidden having called nothing but [getConfigFromTags], once, for the
    function's own ARN with prefix [cfg.] and separator [.]; the heap is
    untouched. *)
Theorem frontAuth_stops_early this event context h e :
  getConfigFromTags (tagQuery context) = Throw e →
  (gate this event context h).1 = Return (Respond forbidden) ∧
  calls (gate this event context h).2
    = [ CallGetConfigFromTags
          {| arn := invokedFunctionArn context; prefix := "cfg."; sep := ".";
             retryFirstDelay := 500; retryMaxDelay := 120000 |}
          (Throw e) ] ∧
  heap (gate this event context h).2 = h.
Proof. intros He. gate_cases. Qed.

(** X8.  The verifier is called at most once in an invocation, and always
    with the configured key pair name and the swizzled options. *)
Theorem frontAuth_verifies_once this event context h :
  (length (verify_tokens (calls (gate this event context h).2)) ≤ 1)%nat ∧
  (∀ config token kp o result,
      getConfigFromTags (tagQuery context) = Return config →
      CallJwtVerify token kp o result ∈ calls (gate this event context h).2 →
      kp = keyPairName config ∧ o = jwtVerifyOptions (prepared config)).
Proof.
  split.
  - gate_cases; lia.
  - intros config token kp o result Hc.
    rewrite <- (prepared_keyPairName jwtVerify_bound config).
    revert token kp o result.
    gate_cases; intros token kp o result Hin; gate_member Hin; done.
Qed.

(** X9.  On the authorization branch the verifier is called exactly once,
    with the value of the cookie named by [tokenCookieName] - with
    [undefined] when there is no such cookie: the handler does not check
    for the cookie itself. *)
Theorem frontAuth_verifies_cookie this event context h config rec r :
  getConfigFromTags (tagQuery context) = Return config →
  Records event !! 0%nat = Some rec →
  h !! request (cf rec) = Some r →
  issues this config r = false →
  verify_tokens (calls (gate this event context h).2)
  = [ parseCookies (headers r) !! to_string (tokenCookieName config) ].
Proof.
  intros Hc He Hr Hi.
  rewrite <- (issues_prepared jwtVerify_bound) in Hi.
  rewrite <- (prepared_tokenCookieName jwtVerify_bound config).
  unfold issues in Hi.
  assert (Hv : is_Some (jwtVerify (prepared config))).
  { unfold add_jwtVerify. destruct (jwtVerify (swizzle config)) eqn:E; simpl;
      rewrite ?E; eauto. }
  destruct Hv as [v Hv].
  gate_cases.
Qed.

(** X10.  The handler itself never writes to a request object: the heap
    after an invocation is the heap before it, or the heap as the bound
    [getSetCookieToken] left it.  With a helper that only reads, such as
    the bearer extractor, every invocation leaves the heap as it was. *)
Theorem frontAuth_heap_frame this event context h :
  (heap (gate this event context h).2 = h ∨
   ∃ f rec, getSetCookieToken this = Some f ∧ Records event !! 0%nat = Some rec ∧
            heap (gate this event context h).2 = (f (request (cf rec)) h).2) ∧
  (getSetCookieToken this = Some getAuthBearerToken_helper →
   heap (gate this event context h).2 = h).
Proof.
  split.
  - gate_cases; try (by left);
      right; do 2 eexists; (repeat split; [done..|]);
      match goal with H : _ = (_, ?g) |- _ => by rewrite H end.
  - intros Hb. unfold getAuthBearerToken_helper in Hb.
    gate_cases;
      match goal with H : context [getAuthBearerToken] |- _ =>
        repeat case_match; by simplify_eq end.
Qed.

(** X11.  When the bound [getSetCookieToken] throws on a request for the
    set-cookie path, the answer is forbidden and the verifier is never
    called. *)
Theorem frontAuth_extraction_failure this event context h config rec r f e h' :
  getConfigFromTags (tagQuery context) = Return config →
  Records event !! 0%nat = Some rec →
  h !! request (cf rec) = Some r →
  issues this config r = true →
  getSetCookieToken this = Some f →
  f (request (cf rec)) h = (Throw e, h') →
  (gate this event context h).1 = Return (Respond forbidden) ∧
  verify_tokens (calls (gate this event context h).2) = [] ∧
  existsb is_setCookieResponse (calls (gate this event context h).2) = false.
Proof.
  intros Hc He Hr Hi Hf Hthrow.
  rewrite <- (issues_prepared jwtVerify_bound) in Hi. unfold issues in Hi.
  apply andb_prop in Hi as [[Hu _]%andb_prop Huri].
  gate_cases.
Qed.

(** X12.  With the bearer extractor bound as [getSetCookieToken]: a
    request for the set-cookie path whose [Authorization] header is
    [Bearer], a space and a token without spaces, and whose token
    verifies, is answered with the cookie [name=token] followed by the
    translated cookie configuration. *)
Theorem frontAuth_bearer_cookie this event context h config rec r entry others tok v claims :
  getConfigFromTags (tagQuery context) = Return config →
  Records event !! 0%nat = Some rec →
  h !! request (cf rec) = Some r →
  issues this config r = true →
  getSetCookieToken this = Some getAuthBearerToken_helper →
  headers r !! "authorization" = Some (entry :: others) →
  value entry = "Bearer " ++ tok →
  free_of " " tok = true →
  jwtVerify (prepared config) = Some v →
  v (Some tok) (keyPairName config) (jwtVerifyOptions (prepared config)) = Return claims →
  ∃ resp, (gate this event context h).1 = Return (Respond resp) ∧
    status resp = "204" ∧
    set_cookie_value resp =
      Some (to_string (tokenCookieName config) ++ "=" ++ tok ++
            (if bool_decide (trim (or_empty (tokenCookieConfig config)) = "") then ""
             else "; " ++ join "; " (split " " (trim (or_empty (tokenCookieConfig config)))))).
Proof.
  intros Hc He Hr Hi Hb Hh Hval Hfree Hv Hok.
  assert (Htok : getAuthBearerToken_helper (request (cf rec)) h = (Return (Some tok), h)).
  { unfold getAuthBearerToken_helper, getAuthBearerToken. rewrite Hr, Hh.
    destruct (split_scheme_token "Bearer" tok "" eq_refl Hfree (or_introl eq_refl))
      as [more Hsplit].
    replace (value entry) with ("Bearer" ++ " " ++ tok ++ "").
    - by rewrite Hsplit.
    - rewrite Hval. change ("Bearer " ++ tok) with ("Bearer" ++ " " ++ tok).
      do 2 f_equal. clear. induction tok as [|c t IH]; [done|].
      by rewrite append_cons, IH. }
  rewrite <- (issues_prepared jwtVerify_bound) in Hi. unfold issues in Hi.
  apply andb_prop in Hi as [[Hu _]%andb_prop Huri].
  rewrite <- (prepared_keyPairName jwtVerify_bound config) in Hok.
  rewrite <- (prepared_tokenCookieName jwtVerify_bound config),
          <- (prepared_tokenCookieConfig jwtVerify_bound config).
  exists (setCookieResponse
    {| SetCookie.cookieName := tokenCookieName (prepared config);
       SetCookie.cookieConfig :=
         Some (join "; " (split " " (trim (or_empty (tokenCookieConfig (prepared config))))));
       SetCookie.token := Some tok |}).
  split; [gate_cases|]. split; [done|].
  rewrite setCookieResponse_value. simpl. do 3 f_equal.
  set (s := trim (or_empty (tokenCookieConfig (prepared config)))).
  unfold truthy_string.
  destruct (String.eqb_spec (join "; " (split " " s)) "") as [Hj|Hj].
  - rewrite bool_decide_eq_true_2; [done|].
    destruct (split " " s) as [|p [|q l]] eqn:Hs.
    + by destruct (split_not_nil " " s).
    + simpl in Hj. subst p. rewrite <- (join_split " " s), Hs. done.
    + rewrite join_cons in Hj. by destruct p.
  - rewrite bool_decide_eq_false_2; [done|]. intros Hs. rewrite Hs in Hj. done.
Qed.

(** X13.  On the authorization branch, the [uri] and the [headers] are all
    that the handler reads of a request: two request objects that agree on
    them - whatever their method, query string, client address and body -
    get the same outcome after the same calls. *)
Theorem frontAuth_reads_uri_and_headers this event context h1 h2 config rec r1 r2 :
  getConfigFromTags (tagQuery context) = Return config →
  Records event !! 0%nat = Some rec →
  h1 !! request (cf rec) = Some r1 →
  h2 !! request (cf rec) = Some r2 →
  uri r1 = uri r2 →
  headers r1 = headers r2 →
  issues this config r1 = false →
  (gate this event context h1).1 = (gate this event context h2).1 ∧
  calls (gate this event context h1).2 = calls (gate this event context h2).2.
Proof.
  intros Hc He Hr1 Hr2 Hu Hh Hi.
  assert (Hi2 : issues this config r2 = false) by (unfold issues in *; by rewrite <- Hu).
  rewrite <- (issues_prepared jwtVerify_bound) in Hi, Hi2. unfold issues in Hi, Hi2.
  destruct r1 as [ip1 hs1 m1 q1 u1 b1], r2 as [ip2 hs2 m2 q2 u2 b2].
  simpl in *. subst u2 hs2.
  gate_cases; cbn [headers uri] in *; gate_agree; try done.
Qed.

(** X14.  The pattern test on a list followed by another is the test on
    the first list and, only when that finds no match and meets no
    invalid pattern, the test on the second: patterns added at the end
    never revoke an access that the list gave, and never undo an error. *)
Theorem some_matches_app u ps qs :
  some (matches u) (ps ++ qs) =
    match some (matches u) ps with
    | Return false => some (matches u) qs
    | other => other
    end.
Proof.
  induction ps as [|p ps IH]; simpl; [done|].
  destruct (matches u p) as [[|]|e]; done.
Qed.

(** X15.  [getAuthorizedRequest] on its own, with any bound
    [getAuthorizedPatterns]: it hands the helper the value of the cookie
    named by [tokenCookieName]; when the helper fails, it fails with the
    helper's own error; when the helper returns patterns, it returns the
    request object if the test on the request's [uri] comes out true,
    throws ['EACCES'] if it comes out false, and throws the
    [SyntaxError] of the first invalid pattern the test reaches. *)
Theorem getAuthorizedRequest_completion (this : This.t) event h rec r :
  Records event !! 0%nat = Some rec →
  h !! request (cf rec) = Some r →
  let w0 := {| heap := h;
               calls := [CallParseCookies (headers r) (parseCookies (headers r))] |} in
  let token := parseCookies (headers r) !! to_string (This.tokenCookieName this) in
  (∀ e w, This.getAuthorizedPatterns this token w0 = (Throw e, w) →
     run (getAuthorizedRequest parseCookies this event) h = (Throw e, w)) ∧
  (∀ ps w r', This.getAuthorizedPatterns this token w0 = (Return ps, w) →
     heap w !! request (cf rec) = Some r' →
     (run (getAuthorizedRequest parseCookies this event) h).1 =
       match some (matches (uri r')) ps with
       | Return true => Return (request (cf rec))
       | Return false => Throw (Thrown "EACCES")
       | Throw e => Throw e
       end).
Proof.
  intros He Hr w0 token. subst w0 token. split.
  - intros e w Hp. unfold run, getAuthorizedRequest, event_request, deref, log,
      mbind, M_bind, mret, M_ret. rewrite He. simpl. rewrite Hr. simpl. by rewrite Hp.
  - intros ps w r' Hp Hr'. unfold run, getAuthorizedRequest, event_request, deref, log,
      await, throw, mbind, M_bind, mret, M_ret. rewrite He. simpl. rewrite Hr. simpl.
    rewrite Hp, Hr'. simpl.
    by destruct (some (matches (uri r')) ps) as [[|]|].
Qed.

(** X16.  A verifier that the configuration carries in [config.jwtVerify]
    is the one used: the library's verifier is then never consulted, and
    the invocation is the same whatever it would have answered. *)
Theorem frontAuth_supplied_verifier (other_bound : option string -> Verifier)
    this event context h :
  (∀ config, getConfigFromTags (tagQuery context) = Return config →
             is_Some (jwtVerify config)) →
  gate this event context h
  = invoke getConfigFromTags other_bound parseCookies this event context h.
Proof.
  intros Hsup. unfold invoke, run, frontAuth, try_catch, log, await, mbind, M_bind.
  simpl. destruct (getConfigFromTags (tagQuery context)) as [config|e] eqn:Hc; [|done].
  destruct (Hsup config eq_refl) as [v Hv].
  assert (Hsame : ∀ b, add_jwtVerify b (swizzle config) = swizzle config).
  { intros b. unfold add_jwtVerify.
    replace (jwtVerify (swizzle config)) with (Some v); [done|].
    rewrite <- Hv. unfold swizzle. destruct (jwtVerifyOptions config); done. }
  by rewrite !Hsame.
Qed.

(** X17.  A [tokenCookieConfig] that is missing, empty or white space only
    gives a cookie without directives: the [Set-Cookie] value is exactly
    [name=token]. *)
Theorem frontAuth_blank_cookie_config this event context h config rec r f tok h' v claims :
  getConfigFromTags (tagQuery context) = Return config →
  Records event !! 0%nat = Some rec →
  h !! request (cf rec) = Some r →
  issues this config r = true →
  getSetCookieToken this = Some f →
  f (request (cf rec)) h = (Return tok, h') →
  jwtVerify (prepared config) = Some v →
  v tok (keyPairName config) (jwtVerifyOptions (prepared config)) = Return claims →
  tokenCookieConfig config = None ∨
    (∃ s, tokenCookieConfig config = Some s ∧ blank s = true) →
  ∃ resp, (gate this event context h).1 = Return (Respond resp) ∧
    set_cookie_value resp = Some (to_string (tokenCookieName config) ++ "=" ++ to_string tok).
Proof.
  intros Hc He Hr Hi Hf Htok Hv Hok Hblank.
  assert (Hcfg : join "; " (split " " (trim (or_empty (tokenCookieConfig config)))) = "").
  { destruct Hblank as [->|(s & -> & Hs)]; [done|].
    rewrite or_empty_some, trim_blank by done. done. }
  rewrite <- (issues_prepared jwtVerify_bound) in Hi. unfold issues in Hi.
  apply andb_prop in Hi as [[Hu _]%andb_prop Huri].
  rewrite <- (prepared_keyPairName jwtVerify_bound config) in Hok.
  rewrite <- (prepared_tokenCookieName jwtVerify_bound config).
  rewrite <- (prepared_tokenCookieConfig jwtVerify_bound config) in Hcfg.
  exists (setCookieResponse
    {| SetCookie.cookieName := tokenCookieName (prepared config);
       SetCookie.cookieConfig :=
         Some (join "; " (split " " (trim (or_empty (tokenCookieConfig (prepared config))))));
       SetCookie.token := tok |}).
  split; [gate_cases|].
  rewrite setCookieResponse_value, Hcfg. simpl. do 3 f_equal.
  clear. generalize (to_string tok). intros s.
  induction s as [|c t IH]; [done|]. by rewrite append_cons, IH.
Qed.

End GatekeeperMore.

(** ** The handler of the repository's test, further *)


Lemma frontAuth_stops_early_witness :
  (invoke (Fixture.getConfigFromTags Fixture.config) Fixture.jwtVerify_bound
     Fixture.parseCookies (engine := RegExpFragment.engine) Fixture.this Fixture.event
     {| invokedFunctionArn := "arn:other" |} (Fixture.heap_of Fixture.commonRequest)).1
  = Return (Respond forbidden).
Proof.
  refine (proj1 (frontAuth_stops_early
    (Fixture.getConfigFromTags Fixture.config) Fixture.jwtVerify_bound
    Fixture.parseCookies (engine := RegExpFragment.engine) Fixture.this Fixture.event
    {| invokedFunctionArn := "arn:other" |} (Fixture.heap_of Fixture.commonRequest)
    (Rejected "ResourceNotFoundException") _)).
  reflexivity.
Defined.

Lemma frontAuth_verifies_cookie_witness :
  verify_tokens (calls (Fixture.handler Fixture.config Fixture.this Fixture.noCookieRequest).2)
  = [ Fixture.parseCookies (headers Fixture.noCookieRequest) !! "testtoken" ].
Proof.
  apply (frontAuth_verifies_cookie
    (Fixture.getConfigFromTags Fixture.config) Fixture.jwtVerify_bound
    Fixture.parseCookies (engine := RegExpFragment.engine)
    Fixture.this Fixture.event Fixture.context
    (Fixture.heap_of Fixture.noCookieRequest)
    Fixture.config {| cf := {| request := 1%positive |} |} Fixture.noCookieRequest).
  - reflexivity.
  - reflexivity.
  - vm_compute. reflexivity.
  - vm_compute. reflexivity.
Defined.

Lemma frontAuth_extraction_failure_witness :
  (Fixture.handler Fixture.config Fixture.this
     (Fixture.exampleRequest "POST" "/setcookie"
        (Fixture.authorizationHeader "Basic dXNlcjpwdw=="))).1
  = Return (Respond forbidden).
Proof.
  refine (proj1 (frontAuth_extraction_failure
    (Fixture.getConfigFromTags Fixture.config) Fixture.jwtVerify_bound
    Fixture.parseCookies (engine := RegExpFragment.engine)
    Fixture.this Fixture.event Fixture.context
    (Fixture.heap_of (Fixture.exampleRequest "POST" "/setcookie"
        (Fixture.authorizationHeader "Basic dXNlcjpwdw==")))
    Fixture.config {| cf := {| request := 1%positive |} |}
    (Fixture.exampleRequest "POST" "/setcookie"
        (Fixture.authorizationHeader "Basic dXNlcjpwdw=="))
    getAuthBearerToken_helper (Thrown "EINVAL")
    (Fixture.heap_of (Fixture.exampleRequest "POST" "/setcookie"
        (Fixture.authorizationHeader "Basic dXNlcjpwdw==")))
    _ _ _ _ _ _)).
  - reflexivity.
  - reflexivity.
  - vm_compute. reflexivity.
  - vm_compute. reflexivity.
  - reflexivity.
  - vm_compute. reflexivity.
Defined.

Lemma frontAuth_bearer_cookie_witness :
  ∃ resp,
    (Fixture.handler Fixture.altConfig Fixture.this Fixture.setCookieRequest).1
      = Return (Respond resp) ∧
    status resp = "204" ∧
    set_cookie_value resp
      = Some "testtoken=header.payload.signature; Secure; HttpOnly; Path=/".
Proof.
  apply (frontAuth_bearer_cookie
    (Fixture.getConfigFromTags Fixture.altConfig) Fixture.jwtVerify_bound
    Fixture.parseCookies (engine := RegExpFragment.engine)
    Fixture.this Fixture.event Fixture.context
    (Fixture.heap_of Fixture.setCookieRequest)
    Fixture.altConfig {| cf := {| request := 1%positive |} |} Fixture.setCookieRequest
    {| key := "Authorization"; value := "Bearer header.payload.signature" |} []
    Fixture.goodToken (Fixture.jwtVerify_bound (Some "test:///store/")) Fixture.payload).
  - reflexivity.
  - reflexivity.
  - vm_compute. reflexivity.
  - vm_compute. reflexivity.
  - reflexivity.
  - vm_compute. reflexivity.
  - reflexivity.
  - reflexivity.
  - reflexivity.
  - vm_compute. reflexivity.
Defined.

Lemma frontAuth_reads_uri_and_headers_witness :
  (Fixture.handler Fixture.config Fixture.this Fixture.commonRequest).1
  = (Fixture.handler Fixture.config Fixture.this
       (Fixture.exampleRequest "DELETE" "/common/test"
          (Fixture.cookieHeader "testtoken=header.payload.signature"))).1.
Proof.
  refine (proj1 (frontAuth_reads_uri_and_headers
    (Fixture.getConfigFromTags Fixture.config) Fixture.jwtVerify_bound
    Fixture.parseCookies (engine := RegExpFragment.engine)
    Fixture.this Fixture.event Fixture.context
    (Fixture.heap_of Fixture.commonRequest)
    (Fixture.heap_of (Fixture.exampleRequest "DELETE" "/common/test"
          (Fixture.cookieHeader "testtoken=header.payload.signature")))
    Fixture.config {| cf := {| request := 1%positive |} |}
    Fixture.commonRequest
    (Fixture.exampleRequest "DELETE" "/common/test"
          (Fixture.cookieHeader "testtoken=header.payload.signature"))
    _ _ _ _ _ _ _)).
  - reflexivity.
  - reflexivity.
  - vm_compute. reflexivity.
  - vm_compute. reflexivity.
  - reflexivity.
  - reflexivity.
  - vm_compute. reflexivity.
Defined.

Lemma getAuthorizedRequest_completion_witness :
  (run (getAuthorizedRequest Fixture.parseCookies (engine := RegExpFragment.engine)
          {| This.tokenCookieName := Some "testtoken";
             This.getAuthorizedPatterns := fun token => mret ["^/private/.*"] |}
          Fixture.event)
       (Fixture.heap_of Fixture.commonRequest)).1
  = Throw (Thrown "EACCES").
Proof.
  refine (proj2 (getAuthorizedRequest_completion
    Fixture.parseCookies (engine := RegExpFragment.engine)
    {| This.tokenCookieName := Some "testtoken";
       This.getAuthorizedPatterns := fun token => mret ["^/private/.*"] |}
    Fixture.event (Fixture.heap_of Fixture.commonRequest)
    {| cf := {| request := 1%positive |} |} Fixture.commonRequest _ _)
    ["^/private/.*"] _ Fixture.commonRequest _ _).
  - reflexivity.
  - vm_compute. reflexivity.
  - reflexivity.
  - vm_compute. reflexivity.
Defined.

Lemma frontAuth_supplied_verifier_witness :
  invoke (Fixture.getConfigFromTags (with_jwtVerify Fixture.config (Some Fixture.jwtVerify_lax)))
    Fixture.jwtVerify_bound Fixture.parseCookies (engine := RegExpFragment.engine)
    Fixture.this Fixture.event Fixture.context (Fixture.heap_of Fixture.noCookieRequest)
  = invoke (Fixture.getConfigFromTags (with_jwtVerify Fixture.config (Some Fixture.jwtVerify_lax)))
      (fun _ _ _ _ => Throw (Rejected "no key"))
      Fixture.parseCookies (engine := RegExpFragment.engine)
      Fixture.this Fixture.event Fixture.context (Fixture.heap_of Fixture.noCookieRequest).
Proof.
  apply frontAuth_supplied_verifier.
  intros config Hc. unfold Fixture.getConfigFromTags in Hc.
  case_bool_decide; [|discriminate]. injection Hc as <-. by eexists.
Defined.

Lemma frontAuth_blank_cookie_config_witness :
  ∃ resp,
    (Fixture.handler Fixture.config Fixture.this Fixture.setCookieRequest).1
      = Return (Respond resp) ∧
    set_cookie_value resp = Some "testtoken=header.payload.signature".
Proof.
  apply (frontAuth_blank_cookie_config
    (Fixture.getConfigFromTags Fixture.config) Fixture.jwtVerify_bound
    Fixture.parseCookies (engine := RegExpFragment.engine)
    Fixture.this Fixture.event Fixture.context
    (Fixture.heap_of Fixture.setCookieRequest)
    Fixture.config {| cf := {| request := 1%positive |} |} Fixture.setCookieRequest
    getAuthBearerToken_helper (Some Fixture.goodToken)
    (Fixture.heap_of Fixture.setCookieRequest)
    (Fixture.jwtVerify_bound (Some "test:///store/")) Fixture.payload).
  - reflexivity.
  - reflexivity.
  - vm_compute. reflexivity.
  - vm_compute. reflexivity.
  - reflexivity.
  - vm_compute. reflexivity.
  - reflexivity.
  - vm_compute. reflexivity.
  - left. reflexivity.
Defined.
